(** * LLMS_TWIN: crawl orchestration and scroll-to-stability

    A shallow embedding of
    - [BaseSeleniumCrawler.scroll_page]
      (src/llm_engineering/application/crawlers/base.py), and
    - [crawl_links], [_crawl_link], [_add_to_metadata]
      (src/steps/etl/crawl_links.py),
    with the properties of the specification stated and settled on them. *)

From stdpp Require Import gmap strings list fin_maps.
From Stdlib Require Import ZArith Lia Ascii.

Local Open Scope Z_scope.

(** Python's truth value of an [int]: every integer but [0] is true. *)
Definition truthy (z : Z) : bool := negb (z =? 0).

(* ===================================================================== *)
(** ** The scroll loop of [BaseSeleniumCrawler] *)
(* ===================================================================== *)

Module Scroll.

(** The browser session as [scroll_page] sees it.  [heights k] is the value
    the page returns for the k-th evaluation of
    ["return document.body.scrollHeight"]; the three counters record the
    commands the session has received. *)
Record Driver := mkDriver {
  heights : nat -> Z;
  reads : nat;
  scrolls : nat;
  slept : Z
}.

(** A freshly loaded page: nothing read, scrolled or waited for yet. *)
Definition fresh (h : nat -> Z) : Driver :=
  {| heights := h; reads := 0; scrolls := 0; slept := 0 |}.

(** [driver.execute_script("return document.body.scrollHeight")] *)
Definition read_height (d : Driver) : Z * Driver :=
  (heights d (reads d),
   {| heights := heights d; reads := S (reads d);
      scrolls := scrolls d; slept := slept d |}).

(** [driver.execute_script("window.scrollTo(0, document.body.scrollHeight);")] *)
Definition scroll_to_bottom (d : Driver) : Driver :=
  {| heights := heights d; reads := reads d;
     scrolls := S (scrolls d); slept := slept d |}.

(** [time.sleep(secs)] *)
Definition sleep (secs : Z) (d : Driver) : Driver :=
  {| heights := heights d; reads := reads d;
     scrolls := scrolls d; slept := slept d + secs |}.

(** The default of the constructor argument [scroll_limit]. *)
Definition default_scroll_limit : Z := 5.

(** The local variables of [scroll_page] at the [break]. *)
Record Locals := mkLocals {
  current_scroll : Z;
  last_height : Z;
  new_height : Z;
  driver : Driver
}.

(** The two disjuncts of the [break] condition, evaluated on the locals. *)
Definition height_stable (l : Locals) : bool :=
  new_height l =? last_height l.

Definition limit_reached (scroll_limit : Z) (l : Locals) : bool :=
  truthy scroll_limit && (scroll_limit <=? current_scroll l).

(** The [while True] loop; [fuel] bounds the number of iterations the model
    will run, [None] meaning that the loop is still running after them. *)
Fixpoint scroll_loop (fuel : nat) (scroll_limit : Z)
    (current_scroll last_height : Z) (d : Driver) : option Locals :=
  match fuel with
  | O => None
  | S fuel' =>
      let d1 := scroll_to_bottom d in
      let d2 := sleep 5 d1 in
      let '(new_height, d3) := read_height d2 in
      let l := mkLocals current_scroll last_height new_height d3 in
      if height_stable l || limit_reached scroll_limit l
      then Some l
      else scroll_loop fuel' scroll_limit (current_scroll + 1) new_height d3
  end.

Definition scroll_page (fuel : nat) (scroll_limit : Z) (d : Driver)
  : option Locals :=
  let current_scroll := 0 in
  let '(last_height, d1) := read_height d in
  scroll_loop fuel scroll_limit current_scroll last_height d1.

(** The number of scroll commands a finished run has issued. *)
Definition scroll_commands (l : Locals) : nat := scrolls (driver l).

(** The page of the scroll-stability test: 100, then 150 for ever. *)
Definition page_100_150 (k : nat) : Z :=
  match k with O => 100 | _ => 150 end.

(** A page that grows by 100 at every reading. *)
Definition growing_page (k : nat) : Z := 100 * (Z.of_nat k + 1).

(** The session at the head of the loop body when [j] scrolls have been
    issued since the page was loaded. *)
Definition at_iteration (h : nat -> Z) (j : nat) : Driver :=
  {| heights := h; reads := S j; scrolls := j; slept := 5 * Z.of_nat j |}.

(** The locals if the loop breaks in the iteration that follows [j]
    completed ones. *)
Definition locals_at (h : nat -> Z) (j : nat) : Locals :=
  mkLocals (Z.of_nat j) (h j) (h (S j)) (at_iteration h (S j)).

(** The [break] condition of that iteration, on the readings of the page. *)
Definition break_at (scroll_limit : Z) (h : nat -> Z) (j : nat) : bool :=
  (h (S j) =? h j) || (truthy scroll_limit && (scroll_limit <=? Z.of_nat j)).

(** The number of completed iterations after which a set limit stops the
    loop at the latest: the limit itself, and none for a negative one. *)
Definition last_turn (scroll_limit : Z) : nat := Z.to_nat (Z.max 0 scroll_limit).

End Scroll.

(* ===================================================================== *)
(** ** The crawl step: [crawl_links], [_crawl_link], [_add_to_metadata] *)
(* ===================================================================== *)

Module Crawl.

(** An instance of Python's [Exception], which is what the handler of
    [_crawl_link] names: its class and its [str()].  Signals below
    [Exception] in the hierarchy ([KeyboardInterrupt], [SystemExit]) are
    not errors of a job and are not modelled. *)
Record exn := mkExn { exn_class : string; exn_str : string }.

(** What a Python call yields: a value, or a raised exception. *)
Inductive outcome (A : Type) : Type :=
| Returned (a : A)
| Raised (e : exn).
Arguments Returned {A} a.
Arguments Raised {A} e.

(** What the step writes with [loguru]. *)
Inductive log_event : Type :=
| LogStarting (n : nat)          (* info: Starting to crawl n link(s). *)
| LogCrawlError (msg : string)   (* error: An error occurred while crawling: msg *)
| LogSummary (ok : Z) (n : nat). (* info: Successfully crawled ok / n links. *)

(** [d.get(k, 0)] on the per-domain record. *)
Definition get0 (d : gmap string Z) (k : string) : Z := default 0 (d !! k).

(** [metadata.get(domain, {})] *)
Definition get_record (metadata : gmap string (gmap string Z)) (domain : string)
  : gmap string Z := default ∅ (metadata !! domain).

(** [metadata[domain][k] = v]: the record stored under [domain] is updated
    in place.  (On a missing [domain] Python raises KeyError; the function
    below only runs it after having made sure that [domain] is a key.) *)
Definition set_field (metadata : gmap string (gmap string Z))
    (domain k : string) (v : Z) : gmap string (gmap string Z) :=
  alter (insert k v) domain metadata.

Definition _add_to_metadata (metadata : gmap string (gmap string Z))
    (domain : string) (successfull_crawl : bool) : gmap string (gmap string Z) :=
  let metadata :=
    if decide (is_Some (metadata !! domain)) then metadata
    else <[domain := ∅]> metadata in
  let metadata :=
    set_field metadata domain "successful"
      (get0 (get_record metadata domain) "successful" + Z.b2z successfull_crawl) in
  let metadata :=
    set_field metadata domain "total"
      (get0 (get_record metadata domain) "total" + 1) in
  metadata.

(** Readings of the two counters of a domain, as [.get(..., 0)] gives them. *)
Definition successful_of (metadata : gmap string (gmap string Z)) (d : string)
  : Z := get0 (get_record metadata d) "successful".

Definition total_of (metadata : gmap string (gmap string Z)) (d : string)
  : Z := get0 (get_record metadata d) "total".

(** [sum(metadata[d]["total"] for d in metadata)] *)
Definition sum_total (metadata : gmap string (gmap string Z)) : Z :=
  map_fold (fun _ r acc => get0 r "total" + acc) 0 metadata.

(** The record [_add_to_metadata] leaves under the domain it counts, from
    the record [r] that was there (the empty one when there was none). *)
Definition counted (r : gmap string Z) (successfull_crawl : bool)
  : gmap string Z :=
  <["total" := get0 r "total" + 1]>
    (<["successful" := get0 r "successful" + Z.b2z successfull_crawl]> r).

(** The invariant of the metrics once [n] jobs have been accounted for. *)
Definition metrics_inv (n : nat) (metadata : gmap string (gmap string Z))
  : Prop :=
  (forall d r, metadata !! d = Some r ->
     0 <= get0 r "successful" <= get0 r "total")
  /\ sum_total metadata = Z.of_nat n.

(** The collaborators of the step, which live outside these files:
    - [W] is the state of the outside world (browser sessions, the
      document store) that resolving and extracting read and change;
    - [get_crawler] is [dispatcher.get_crawler] of the dispatcher built by
      [CrawlerDispatcher.build().register_linkedin().register_medium().register_github()];
    - [urlparse_netloc link] is [urlparse(link).netloc];
    - [extract crawler link user] is [crawler.extract(link=link, user=user)],
      [None] when it returns and [Some e] when it raises [e]. *)
Class Collaborators (Crawler User W : Type) : Type := {
  get_crawler : string -> W -> outcome Crawler * W;
  urlparse_netloc : string -> outcome string;
  extract : Crawler -> string -> User -> W -> option exn * W
}.

Section Orchestrator.

Context {Crawler User W : Type} {env : Collaborators Crawler User W}.

(** The state the step runs in: the outside world, the log, and the
    metadata handed to the step context. *)
Record World := mkWorld {
  ext : W;
  log : list log_event;
  output_metadata : list (string * gmap string (gmap string Z))
}.

Definition M (A : Type) : Type := World -> outcome A * World.

Definition ret {A} (a : A) : M A := fun w => (Returned a, w).

Definition bind {A B} (m : M A) (k : A -> M B) : M B := fun w =>
  match m w with
  | (Returned a, w') => k a w'
  | (Raised e, w') => (Raised e, w')
  end.

Definition with_ext (x : W) (w : World) : World :=
  {| ext := x; log := log w; output_metadata := output_metadata w |}.

(** [logger.info(...)] / [logger.error(...)] *)
Definition logger (ev : log_event) : M unit := fun w =>
  (Returned tt,
   {| ext := ext w; log := log w ++ [ev]; output_metadata := output_metadata w |}).

(** [get_step_context().add_output_metadata(output_name=..., metadata=...)] *)
Definition add_output_metadata (output_name : string)
    (metadata : gmap string (gmap string Z)) : M unit := fun w =>
  (Returned tt,
   {| ext := ext w; log := log w;
      output_metadata := output_metadata w ++ [(output_name, metadata)] |}).

Definition _crawl_link (link : string) (user : User) : M (bool * string) :=
  fun w =>
  match get_crawler link (ext w) with
  | (Raised e, x) => (Raised e, with_ext x w)
  | (Returned crawler, x) =>
      match urlparse_netloc link with
      | Raised e => (Raised e, with_ext x w)
      | Returned crawler_domain =>
          (* try: *)
          match extract crawler link user x with
          | (None, x') => (Returned (true, crawler_domain), with_ext x' w)
          | (Some e, x') =>
              (* except Exception as e: *)
              bind (logger (LogCrawlError (exn_str e)))
                   (fun _ => ret (false, crawler_domain))
                   (with_ext x' w)
          end
      end
  end.

(** The body of [for link in tqdm(links)], on the two variables it
    updates. *)
Definition crawl_step (user : User) (link : string)
    (st : gmap string (gmap string Z) * Z)
  : M (gmap string (gmap string Z) * Z) :=
  let '(metadata, successfull_crawls) := st in
  bind (_crawl_link link user) (fun '(successfull_crawl, crawled_domain) =>
  let successfull_crawls := successfull_crawls + Z.b2z successfull_crawl in
  let metadata := _add_to_metadata metadata crawled_domain successfull_crawl in
  ret (metadata, successfull_crawls)).

Fixpoint crawl_loop (user : User) (links : list string)
    (st : gmap string (gmap string Z) * Z)
  : M (gmap string (gmap string Z) * Z) :=
  match links with
  | [] => ret st
  | link :: links' =>
      bind (crawl_step user link st) (crawl_loop user links')
  end.

Definition crawl_links (user : User) (links : list string) : M (list string) :=
  bind (logger (LogStarting (length links))) (fun _ =>
  let metadata : gmap string (gmap string Z) := ∅ in
  let successfull_crawls := 0 in
  bind (crawl_loop user links (metadata, successfull_crawls))
    (fun '(metadata, successfull_crawls) =>
  bind (add_output_metadata "crawled_links" metadata) (fun _ =>
  bind (logger (LogSummary successfull_crawls (length links))) (fun _ =>
  ret links)))).

(** The world once [_crawl_link] has caught and logged [e], the outside
    world having become [x]. *)
Definition caught (e : exn) (x : W) (w : World) : World :=
  {| ext := x; log := log w ++ [LogCrawlError (exn_str e)];
     output_metadata := output_metadata w |}.

(** The world once the step has logged that it starts on [n] links, and
    once it has handed over the metrics and logged its summary. *)
Definition started (n : nat) (w : World) : World :=
  {| ext := ext w; log := log w ++ [LogStarting n];
     output_metadata := output_metadata w |}.

Definition finished (metadata : gmap string (gmap string Z)) (ok : Z) (n : nat)
    (w : World) : World :=
  {| ext := ext w; log := log w ++ [LogSummary ok n];
     output_metadata := output_metadata w ++ [("crawled_links", metadata)] |}.

(** A link for which, whatever the state of the outside world, the
    dispatcher returns a crawler and [urlparse] returns. *)
Definition resolves (link : string) : Prop :=
  (forall x, exists crawler x', get_crawler link x = (Returned crawler, x'))
  /\ exists d, urlparse_netloc link = Returned d.

(** The number of links of a batch whose network location is [d]. *)
Definition netloc_is (d : string) (link : string) : bool :=
  match urlparse_netloc link with
  | Returned d' => bool_decide (d' = d)
  | Raised _ => false
  end.

Definition links_of_domain (d : string) (links : list string) : nat :=
  length (List.filter (netloc_is d) links).

End Orchestrator.

(** [sum(metadata[d][k] for d in metadata)], a missing field counting 0. *)
Definition sum_field (k : string) (metadata : gmap string (gmap string Z)) : Z :=
  map_fold (fun _ r acc => get0 r k + acc) 0 metadata.

Definition sum_successful (metadata : gmap string (gmap string Z)) : Z :=
  sum_field "successful" metadata.

(** The error lines of the log. *)
Definition is_crawl_error (ev : log_event) : bool :=
  match ev with
  | LogCrawlError _ => true
  | _ => false
  end.

(** The metrics once the outcomes of a list of jobs, each the pair
    [(successfull_crawl, crawled_domain)] that [_crawl_link] returns, have
    been counted in order. *)
Definition count_outcomes (metadata : gmap string (gmap string Z))
    (outcomes : list (bool * string)) : gmap string (gmap string Z) :=
  fold_left (fun metadata '(successfull_crawl, crawled_domain) =>
               _add_to_metadata metadata crawled_domain successfull_crawl)
            outcomes metadata.

(** The number of successful outcomes in a list. *)
Definition successes (outcomes : list (bool * string)) : Z :=
  Z.of_nat (length (List.filter fst outcomes)).

(** The keys of a per-domain record that the step has written. *)
Definition record_keys : gset string := {[ "successful"; "total" ]}.

(** Metrics all of whose records have exactly these keys. *)
Definition shaped (metadata : gmap string (gmap string Z)) : Prop :=
  forall d r, metadata !! d = Some r -> dom r = record_keys.

End Crawl.

(* ===================================================================== *)
(** ** A concrete environment for the crawl step *)
(* ===================================================================== *)

(** The collaborators of the step at which the examples below run it. *)
Module Env.
Import Crawl.

(** *** [urlparse(link).netloc]

    The network location as CPython's [urllib.parse.urlsplit] computes it
    for an ASCII [str]: leading C0 controls and spaces are stripped, tab,
    CR and LF are removed, a leading [scheme:] is split off, and what
    follows a leading [//] up to the first of [/], [?], [#] is the network
    location; a network location with an opening but no closing bracket (or
    the reverse) raises [ValueError].  (Further validation of a host inside
    a matched pair of brackets is left out; no link used below has one.) *)

Definition is_c0_or_space (c : ascii) : bool := (nat_of_ascii c <=? 32)%nat.

Definition is_unsafe_byte (c : ascii) : bool :=
  let n := nat_of_ascii c in
  ((n =? 9) || (n =? 13) || (n =? 10))%nat.

Definition is_ascii_alpha (c : ascii) : bool :=
  let n := nat_of_ascii c in
  (((65 <=? n) && (n <=? 90)) || ((97 <=? n) && (n <=? 122)))%nat.

Definition is_scheme_char (c : ascii) : bool :=
  let n := nat_of_ascii c in
  (is_ascii_alpha c || ((48 <=? n) && (n <=? 57))
   || (n =? 43) || (n =? 45) || (n =? 46))%nat.

Definition is_netloc_delim (c : ascii) : bool :=
  let n := nat_of_ascii c in
  ((n =? 47) || (n =? 63) || (n =? 35))%nat.

(** [url.lstrip(_WHATWG_C0_CONTROL_OR_SPACE)] *)
Fixpoint lstrip_c0 (url : string) : string :=
  match url with
  | String c url' => if is_c0_or_space c then lstrip_c0 url' else url
  | EmptyString => EmptyString
  end.

(** [for b in _UNSAFE_URL_BYTES_TO_REMOVE: url = url.replace(b, "")] *)
Fixpoint remove_unsafe (url : string) : string :=
  match url with
  | String c url' =>
      if is_unsafe_byte c then remove_unsafe url'
      else String c (remove_unsafe url')
  | EmptyString => EmptyString
  end.

(** [url[:i], url[i+1:]] for [i = url.find(c)], when [c] occurs. *)
Fixpoint split_at (c : ascii) (url : string) : option (string * string) :=
  match url with
  | EmptyString => None
  | String a url' =>
      if Ascii.eqb a c then Some (EmptyString, url')
      else match split_at c url' with
           | Some (before, after) => Some (String a before, after)
           | None => None
           end
  end.

Fixpoint all_chars (p : ascii -> bool) (s : string) : bool :=
  match s with
  | EmptyString => true
  | String c s' => p c && all_chars p s'
  end.

Fixpoint has_char (c : ascii) (s : string) : bool :=
  match s with
  | EmptyString => false
  | String a s' => Ascii.eqb a c || has_char c s'
  end.

(** The text before the first character that satisfies [stop]. *)
Fixpoint take_until (stop : ascii -> bool) (s : string) : string :=
  match s with
  | EmptyString => EmptyString
  | String c s' => if stop c then EmptyString else String c (take_until stop s')
  end.

(** The URL once a leading scheme has been split off. *)
Definition drop_scheme (url : string) : string :=
  match split_at ":" url with
  | Some (String c0 rest as before, after) =>
      if is_ascii_alpha c0 && all_chars is_scheme_char before then after
      else url
  | _ => url
  end.

Definition netloc (link : string) : outcome string :=
  let url := remove_unsafe (lstrip_c0 link) in
  match drop_scheme url with
  | String "/" (String "/" rest) =>
      let loc := take_until is_netloc_delim rest in
      if xorb (has_char "[" loc) (has_char "]" loc)
      then Raised (mkExn "ValueError" "Invalid IPv6 URL")
      else Returned loc
  | _ => Returned ""
  end.

(** *** The dispatcher *)

Inductive Extractor : Type := LinkedIn | Medium | Github | Generic.

(** The host of a network location, its port ignored. *)
Definition host_of (loc : string) : string := take_until (Ascii.eqb ":") loc.

Fixpoint lookup_host (registry : list (string * Extractor)) (host : string)
  : Extractor :=
  match registry with
  | [] => Generic
  | (pattern, x) :: registry' =>
      if String.eqb pattern host then x else lookup_host registry' host
  end.

Definition registry : list (string * Extractor) :=
  [("www.linkedin.com", LinkedIn); ("medium.com", Medium); ("github.com", Github)].

(** Modelled from the spec: [Dispatcher.resolve] of section 4.1, the module
    [llm_engineering.application.crawlers.dispatcher] not being among the
    sources.  It parses the URL's network location and returns the
    extractor registered for that host (the port ignored), the generic one
    when no registration matches; for a malformed URL, one that cannot be
    parsed into a network location, it signals [InvalidURLError]. *)
Definition resolve (link : string) (w : nat) : outcome Extractor * nat :=
  match netloc link with
  | Returned (String _ _ as loc) =>
      (Returned (lookup_host registry (host_of loc)), w)
  | _ => (Raised (mkExn "InvalidURLError" link), w)
  end.

(** A dispatcher that resolves every link, to the generic extractor when no
    registration matches (and also when the link has no network location). *)
Definition resolve_lenient (link : string) (w : nat)
  : outcome Extractor * nat :=
  match netloc link with
  | Returned loc => (Returned (lookup_host registry (host_of loc)), w)
  | Raised _ => (Returned Generic, w)
  end.

(** *** Extraction *)

(** The owner of the crawled documents, with the fields
    [get_or_create_user] reports about it. *)
Record UserDocument := mkUser {
  id : string;
  first_name : string;
  last_name : string
}.

(** A stand-in for [crawler.extract]: a link with a network location is
    fetched and one document is stored (the world counts them), unless its
    path is [/gone]; anything else cannot be fetched. *)
Definition fetch (crawler : Extractor) (link : string) (user : UserDocument)
    (w : nat) : option exn * nat :=
  match netloc link with
  | Returned (String _ _) =>
      if String.eqb link "https://medium.com/gone"
      then (Some (mkExn "HTTPError" "404 Not Found"), w)
      else (None, S w)
  | _ => (Some (mkExn "MissingSchema" "Invalid URL: no scheme supplied"), w)
  end.

(** The two environments: the dispatcher of the specification, and the
    one that resolves every link. *)
Definition strict : Collaborators Extractor UserDocument nat :=
  {| get_crawler := resolve; urlparse_netloc := netloc; extract := fetch |}.

Definition lenient : Collaborators Extractor UserDocument nat :=
  {| get_crawler := resolve_lenient; urlparse_netloc := netloc;
     extract := fetch |}.

Definition paul : UserDocument := mkUser "u1" "Paul" "Iusztin".

Definition world0 : World (W := nat) := mkWorld 0%nat [] [].

(** Three links that resolve; the second one cannot be fetched. *)
Definition batch : list string :=
  ["https://medium.com/p/1"; "https://medium.com/gone"; "https://github.com/a/b"].

(** The metrics of that batch. *)
Definition batch_metrics : gmap string (gmap string Z) :=
  _add_to_metadata
    (_add_to_metadata (_add_to_metadata ∅ "medium.com" true) "medium.com" false)
    "github.com" true.

(** A batch whose second entry is not a URL. *)
Definition batch_with_text : list string :=
  ["https://medium.com/p/1"; "not a url"; "https://github.com/a/b"].

(** A batch whose second entry opens a bracket in its network location. *)
Definition batch_with_bracket : list string :=
  ["https://medium.com/p/1"; "http://["; "https://github.com/a/b"].

(** A batch with two entries that have no network location. *)
Definition batch_with_texts : list string :=
  ["not a url"; "https://medium.com/p/1"; "neither is this"].

(** What the stand-in raises for the second link of [batch], and the world
    in which that link is reached: one document stored. *)
Definition not_found : exn := mkExn "HTTPError" "404 Not Found".

Definition after_first : World (W := nat) := with_ext 1%nat world0.

(** The metrics once the first link of [batch] has been counted. *)
Definition first_metrics : gmap string (gmap string Z) :=
  _add_to_metadata ∅ "medium.com" true.

(** Metrics with one domain, counted twice and once successfully. *)
Definition one_domain : gmap string (gmap string Z) :=
  {[ "medium.com" := <["total" := 2]> (<["successful" := 1]> ∅) ]}.

End Env.

(* ===================================================================== *)
(** ** The user step: [get_or_create_user], [_get_metadata] *)
(* ===================================================================== *)

Module GetOrCreateUser.
Import Crawl.

(** The collaborators of the step, which live outside these files:
    - [W] is the state of the document store;
    - [split_user_full_name] is [utils.split_user_full_name];
    - [get_or_create first_name last_name] is
      [UserDocument.get_or_create(first_name=first_name, last_name=last_name)]. *)
Class UserStore (W : Type) : Type := {
  split_user_full_name : string -> outcome (string * string);
  get_or_create : string -> string -> W -> outcome Env.UserDocument * W
}.

(** The metadata of the step; the field [id] of the document holds
    [str(user.id)]. *)
Definition _get_metadata (user_full_name : string) (user : Env.UserDocument)
  : gmap string (gmap string string) :=
  {[ "query" := {[ "user_full_name" := user_full_name ]};
     "retrieved" :=
       {[ "user_id" := Env.id user;
          "first_name" := Env.first_name user;
          "last_name" := Env.last_name user ]} ]}.

Section Step.

Context {W : Type} {users : UserStore W}.

(** The state the step runs in: the document store, the lines logged, and
    the metadata handed to the step context. *)
Record World := mkWorld {
  store : W;
  log : list string;
  output_metadata : list (string * gmap string (gmap string string))
}.

(** [logger.info(msg)] *)
Definition logged (msg : string) (w : World) : World :=
  {| store := store w; log := log w ++ [msg];
     output_metadata := output_metadata w |}.

Definition with_store (s : W) (w : World) : World :=
  {| store := s; log := log w; output_metadata := output_metadata w |}.

(** [get_step_context().add_output_metadata(output_name=..., metadata=...)] *)
Definition add_output_metadata (output_name : string)
    (metadata : gmap string (gmap string string)) (w : World) : World :=
  {| store := store w; log := log w;
     output_metadata := output_metadata w ++ [(output_name, metadata)] |}.

Definition get_or_create_user (user_full_name : string) (w : World)
  : outcome Env.UserDocument * World :=
  let w := logged ("Getting or creating user: " ++ user_full_name) w in
  match split_user_full_name user_full_name with
  | Raised e => (Raised e, w)
  | Returned (first_name, last_name) =>
      match get_or_create first_name last_name (store w) with
      | (Raised e, s) => (Raised e, with_store s w)
      | (Returned user, s) =>
          (Returned user,
           add_output_metadata "user" (_get_metadata user_full_name user)
             (with_store s w))
      end
  end.

End Step.

(** *** A document store for the examples *)

(** A stand-in for [utils.split_user_full_name] that knows one name. *)
Definition split_one (user_full_name : string) : outcome (string * string) :=
  if String.eqb user_full_name "Paul Iusztin"
  then Returned ("Paul", "Iusztin")
  else Raised (mkExn "ImproperlyConfigured" "User name is empty").

(** A stand-in for [UserDocument.get_or_create]: the store is the list of
    its documents; the first one with the given names is returned, and one
    is appended when there is none. *)
Definition find_or_add (first_name last_name : string)
    (docs : list Env.UserDocument)
  : outcome Env.UserDocument * list Env.UserDocument :=
  match List.find (fun u => String.eqb (Env.first_name u) first_name
                            && String.eqb (Env.last_name u) last_name) docs with
  | Some u => (Returned u, docs)
  | None =>
      let u := Env.mkUser "new" first_name last_name in
      (Returned u, docs ++ [u])
  end.

Definition one_store : UserStore (list Env.UserDocument) :=
  {| split_user_full_name := split_one; get_or_create := find_or_add |}.

Definition empty_world : World (W := list Env.UserDocument) :=
  mkWorld [] [] [].

End GetOrCreateUser.

(* ===================================================================== *)
(** ** Properties of the scroll loop *)
(* ===================================================================== *)

Section ScrollFacts.
Import Scroll.

Variable scroll_limit : Z.
Variable h : nat -> Z.

Lemma scroll_page_fresh fuel :
  scroll_page fuel scroll_limit (fresh h)
  = scroll_loop fuel scroll_limit (Z.of_nat 0) (h 0%nat) (at_iteration h 0).
Proof. reflexivity. Qed.

(** One turn of the loop, on the readings of the page. *)
Lemma scroll_loop_turn fuel j :
  scroll_loop (S fuel) scroll_limit (Z.of_nat j) (h j) (at_iteration h j)
  = if break_at scroll_limit h j then Some (locals_at h j)
    else scroll_loop fuel scroll_limit (Z.of_nat (S j)) (h (S j))
           (at_iteration h (S j)).
Proof.
  assert (Hd : snd (read_height (sleep 5 (scroll_to_bottom (at_iteration h j))))
               = at_iteration h (S j)).
  { unfold at_iteration, read_height, sleep, scroll_to_bottom; simpl.
    f_equal. lia. }
  cbn [scroll_loop].
  destruct (read_height (sleep 5 (scroll_to_bottom (at_iteration h j))))
    as [nh d3] eqn:E.
  assert (Hn : nh = h (S j)) by (inversion E; reflexivity).
  simpl in Hd. subst nh d3.
  replace (Z.of_nat j + 1) with (Z.of_nat (S j)) by lia.
  reflexivity.
Qed.

(** The loop breaks in the first iteration whose condition holds. *)
Lemma scroll_loop_breaks n : forall j fuel,
  (forall i, (j <= i < j + n)%nat -> break_at scroll_limit h i = false) ->
  break_at scroll_limit h (j + n) = true ->
  (n < fuel)%nat ->
  scroll_loop fuel scroll_limit (Z.of_nat j) (h j) (at_iteration h j)
  = Some (locals_at h (j + n)).
Proof.
  induction n as [|n IH]; intros j fuel Hrun Hbrk Hfuel.
  - destruct fuel as [|fuel]; [lia|].
    rewrite scroll_loop_turn. rewrite Nat.add_0_r in Hbrk |- *.
    now rewrite Hbrk.
  - destruct fuel as [|fuel]; [lia|].
    rewrite scroll_loop_turn, (Hrun j) by lia.
    replace (j + S n)%nat with (S j + n)%nat in * by lia.
    apply IH; [|assumption|lia].
    intros i Hi. apply Hrun. lia.
Qed.

(** As long as no iteration's condition holds, the loop is still running. *)
Lemma scroll_loop_running fuel : forall j,
  (forall i, (j <= i < j + fuel)%nat -> break_at scroll_limit h i = false) ->
  scroll_loop fuel scroll_limit (Z.of_nat j) (h j) (at_iteration h j) = None.
Proof.
  induction fuel as [|fuel IH]; intros j Hrun; [reflexivity|].
  rewrite scroll_loop_turn, (Hrun j) by lia.
  apply IH. intros i Hi. apply Hrun. lia.
Qed.

(** What [scroll_page] does on a page whose first breaking iteration is the
    one after [n] completed ones. *)
Lemma scroll_page_first_break n fuel :
  (forall i, (i < n)%nat -> break_at scroll_limit h i = false) ->
  break_at scroll_limit h n = true ->
  scroll_page fuel scroll_limit (fresh h)
  = if (n <? fuel)%nat then Some (locals_at h n) else None.
Proof.
  intros Hrun Hbrk. rewrite scroll_page_fresh.
  destruct (n <? fuel)%nat eqn:E.
  - apply Nat.ltb_lt in E.
    apply (scroll_loop_breaks n 0 fuel); auto.
    intros i Hi. apply Hrun. lia.
  - apply Nat.ltb_ge in E. apply scroll_loop_running.
    intros i Hi. apply Hrun. lia.
Qed.

Lemma scroll_page_never_breaks fuel :
  (forall i, break_at scroll_limit h i = false) ->
  scroll_page fuel scroll_limit (fresh h) = None.
Proof.
  intros Hrun. rewrite scroll_page_fresh. apply scroll_loop_running. auto.
Qed.

(** Below a bound, a test either fails everywhere or has a first success. *)
Lemma first_true_below (P : nat -> bool) (N : nat) :
  (forall i, (i < N)%nat -> P i = false) \/
  (exists n, (n < N)%nat /\ P n = true /\ forall i, (i < n)%nat -> P i = false).
Proof.
  induction N as [|N [IH|(n & Hn & Hp & Hlt)]].
  - left. intros i Hi. lia.
  - destruct (P N) eqn:E.
    + right. exists N. repeat split; auto.
    + left. intros i Hi. destruct (decide (i = N)) as [->|]; [assumption|].
      apply IH. lia.
  - right. exists n. repeat split; auto.
Qed.

(** A finished run broke in the first iteration whose condition held. *)
Lemma scroll_page_finished fuel l :
  scroll_page fuel scroll_limit (fresh h) = Some l ->
  exists n, (n < fuel)%nat /\ l = locals_at h n
    /\ break_at scroll_limit h n = true
    /\ forall i, (i < n)%nat -> break_at scroll_limit h i = false.
Proof.
  intros Hrun.
  destruct (first_true_below (break_at scroll_limit h) fuel)
    as [Hnone|(n & Hn & Hp & Hlt)].
  - rewrite scroll_page_fresh, scroll_loop_running in Hrun; [discriminate|].
    intros i Hi. apply Hnone. lia.
  - rewrite (scroll_page_first_break n fuel Hlt Hp) in Hrun.
    apply Nat.ltb_lt in Hn. rewrite Hn in Hrun.
    exists n. apply Nat.ltb_lt in Hn. repeat split; auto. congruence.
Qed.

End ScrollFacts.

Section ScrollClaims.
Import Scroll.

(** C5.  With the default scroll limit (5), on a page whose successive
    height readings are 100, 150, 150, [scroll_page] issues exactly two
    scroll commands (and takes exactly these three readings) and stops
    because the new height equals the last one, the limit test being false
    at that point. *)
Theorem scroll_page_stops_when_stable (h : nat -> Z) (fuel : nat) :
  h 0%nat = 100 -> h 1%nat = 150 -> h 2%nat = 150 -> (2 <= fuel)%nat ->
  exists l, scroll_page fuel default_scroll_limit (fresh h) = Some l
    /\ scroll_commands l = 2%nat
    /\ reads (driver l) = 3%nat
    /\ height_stable l = true
    /\ limit_reached default_scroll_limit l = false.
Proof.
  intros H0 H1 H2 Hfuel. exists (locals_at h 1).
  rewrite (scroll_page_first_break default_scroll_limit h 1 fuel).
  - replace (1 <? fuel)%nat with true by (symmetry; apply Nat.ltb_lt; lia).
    unfold height_stable, limit_reached; simpl. rewrite H1, H2. auto.
  - intros i Hi. assert (i = 0%nat) as -> by lia.
    unfold break_at. rewrite H0, H1. reflexivity.
  - unfold break_at. rewrite H1, H2. reflexivity.
Qed.

Lemma scroll_page_stops_when_stable_witness :
  exists l, scroll_page 2 default_scroll_limit (fresh page_100_150) = Some l
    /\ scroll_commands l = 2%nat
    /\ reads (driver l) = 3%nat
    /\ height_stable l = true
    /\ limit_reached default_scroll_limit l = false.
Proof.
  apply (scroll_page_stops_when_stable page_100_150 2);
    [reflexivity | reflexivity | reflexivity | lia].
Defined.

(** C6 (what the code does).  With [scroll_limit = 2] on a page whose
    height grows at every reading, the loop is still running after two
    iterations; it stops in the third one, after a third scroll command,
    with its counter at 2 and the height still changing. *)
Theorem scroll_page_limit_2_scrolls_thrice (h : nat -> Z) :
  (forall k, h k < h (S k)) ->
  scroll_page 2 2 (fresh h) = None
  /\ forall fuel, (3 <= fuel)%nat ->
     exists l, scroll_page fuel 2 (fresh h) = Some l
       /\ scroll_commands l = 3%nat
       /\ current_scroll l = 2
       /\ height_stable l = false
       /\ limit_reached 2 l = true.
Proof.
  intros Hgrow.
  assert (Hne : forall k, (h (S k) =? h k) = false).
  { intros k. apply Z.eqb_neq. specialize (Hgrow k). lia. }
  assert (Hrun : forall i, (i < 2)%nat -> break_at 2 h i = false).
  { intros i Hi. unfold break_at. rewrite Hne.
    destruct i as [|[|i]]; [reflexivity|reflexivity|lia]. }
  assert (Hbrk : break_at 2 h 2 = true).
  { unfold break_at. rewrite Hne. reflexivity. }
  split.
  - now rewrite (scroll_page_first_break 2 h 2 2 Hrun Hbrk).
  - intros fuel Hfuel. exists (locals_at h 2).
    rewrite (scroll_page_first_break 2 h 2 fuel Hrun Hbrk).
    replace (2 <? fuel)%nat with true by (symmetry; apply Nat.ltb_lt; lia).
    unfold height_stable, limit_reached; simpl. rewrite Hne. auto.
Qed.

Lemma scroll_page_limit_2_scrolls_thrice_witness :
  scroll_page 2 2 (fresh growing_page) = None
  /\ forall fuel, (3 <= fuel)%nat ->
     exists l, scroll_page fuel 2 (fresh growing_page) = Some l
       /\ scroll_commands l = 3%nat
       /\ current_scroll l = 2
       /\ height_stable l = false
       /\ limit_reached 2 l = true.
Proof.
  apply (scroll_page_limit_2_scrolls_thrice growing_page).
  intros k. unfold growing_page. lia.
Defined.

(** With no limit set, the [break] condition is the stability test. *)
Lemma break_at_no_limit (h : nat -> Z) (j : nat) :
  break_at 0 h j = (h (S j) =? h j).
Proof. unfold break_at. simpl. apply orb_false_r. Qed.

(** C7 (as stated, refuted).  With [scroll_limit = 0] on the page that
    reads 100, 150, 150, [scroll_page] issues two scroll commands and takes
    three readings; no run of it ends with zero scroll commands. *)
Lemma scroll_limit_0_still_scrolls :
  (exists l, scroll_page 2 0 (fresh page_100_150) = Some l
     /\ scroll_commands l = 2%nat /\ reads (driver l) = 3%nat)
  /\ ~ (exists fuel l, scroll_page fuel 0 (fresh page_100_150) = Some l
          /\ scroll_commands l = 0%nat).
Proof.
  split.
  - eexists. split; [reflexivity|]. split; reflexivity.
  - intros (fuel & l & Hrun & Hzero).
    apply scroll_page_finished in Hrun as (n & _ & -> & _).
    discriminate Hzero.
Qed.

(** C7 (amended).  With [scroll_limit = 0] no limit is set: [scroll_page]
    stops exactly at the first reading that equals the one before it, having
    issued one scroll command per reading taken after the initial one (so at
    least one), and every run that ends has ended on a stable height; on a
    page whose height differs at every reading it never stops. *)
Theorem scroll_limit_0_is_no_limit (h : nat -> Z) :
  (forall n, (forall i, (i < n)%nat -> h (S i) <> h i) -> h (S n) = h n ->
     forall fuel, (n < fuel)%nat ->
     exists l, scroll_page fuel 0 (fresh h) = Some l
       /\ scroll_commands l = S n
       /\ height_stable l = true
       /\ limit_reached 0 l = false)
  /\ (forall fuel l, scroll_page fuel 0 (fresh h) = Some l ->
       (1 <= scroll_commands l)%nat /\ height_stable l = true)
  /\ ((forall i, h (S i) <> h i) ->
       forall fuel, scroll_page fuel 0 (fresh h) = None).
Proof.
  split; [|split].
  - intros n Hchg Hstab fuel Hfuel. exists (locals_at h n).
    rewrite (scroll_page_first_break 0 h n fuel).
    + replace (n <? fuel)%nat with true by (symmetry; apply Nat.ltb_lt; lia).
      unfold height_stable; simpl. rewrite Hstab, Z.eqb_refl. auto.
    + intros i Hi. rewrite break_at_no_limit. apply Z.eqb_neq. auto.
    + rewrite break_at_no_limit. apply Z.eqb_eq. assumption.
  - intros fuel l Hrun.
    apply scroll_page_finished in Hrun as (n & _ & -> & Hbrk & _).
    rewrite break_at_no_limit in Hbrk.
    split; [unfold scroll_commands; simpl; lia | exact Hbrk].
  - intros Hchg fuel. apply scroll_page_never_breaks.
    intros i. rewrite break_at_no_limit. apply Z.eqb_neq. auto.
Qed.

Lemma scroll_limit_0_is_no_limit_witness :
  (exists l, scroll_page 2 0 (fresh page_100_150) = Some l
     /\ scroll_commands l = 2%nat
     /\ height_stable l = true
     /\ limit_reached 0 l = false)
  /\ (forall fuel, scroll_page fuel 0 (fresh growing_page) = None).
Proof.
  split.
  - apply (proj1 (scroll_limit_0_is_no_limit page_100_150) 1%nat).
    + intros i Hi. assert (i = 0%nat) as -> by lia. discriminate.
    + reflexivity.
    + lia.
  - apply (proj2 (proj2 (scroll_limit_0_is_no_limit growing_page))).
    intros i. unfold growing_page. lia.
Defined.

(** C8 (as stated, refuted).  With [scroll_limit = 0] on a page that grows
    at every reading, no amount of iterations ends [scroll_page]. *)
Lemma scroll_page_may_run_forever :
  ~ (exists fuel l, scroll_page fuel 0 (fresh growing_page) = Some l).
Proof.
  intros (fuel & l & Hrun).
  rewrite scroll_page_never_breaks in Hrun; [discriminate|].
  intros i. rewrite break_at_no_limit. apply Z.eqb_neq.
  unfold growing_page. lia.
Qed.

(** C8 (amended).  For every non-zero [scroll_limit] and every sequence of
    page heights, [scroll_page] terminates: it breaks after some number [n]
    of completed iterations, where [n] is at most the limit (at most 0 for a
    negative one) and is the final value of its scroll counter. *)
Theorem scroll_page_terminates (scroll_limit : Z) (h : nat -> Z) :
  scroll_limit <> 0 ->
  exists n l,
    (forall fuel, (n < fuel)%nat ->
       scroll_page fuel scroll_limit (fresh h) = Some l)
    /\ current_scroll l = Z.of_nat n
    /\ current_scroll l <= Z.max 0 scroll_limit.
Proof.
  intros Hset.
  set (N := Z.to_nat (Z.max 0 scroll_limit)).
  assert (HN : break_at scroll_limit h N = true).
  { unfold break_at, truthy.
    replace (scroll_limit =? 0) with false by (symmetry; apply Z.eqb_neq; lia).
    replace (scroll_limit <=? Z.of_nat N) with true
      by (symmetry; apply Z.leb_le; lia).
    apply orb_true_r. }
  destruct (first_true_below (break_at scroll_limit h) (S N))
    as [Hnone|(n & Hn & Hp & Hlt)].
  { rewrite Hnone in HN by lia. discriminate. }
  exists n, (locals_at h n). split; [|split].
  - intros fuel Hfuel.
    rewrite (scroll_page_first_break scroll_limit h n fuel Hlt Hp).
    now replace (n <? fuel)%nat with true by (symmetry; apply Nat.ltb_lt; lia).
  - reflexivity.
  - simpl. lia.
Qed.

Lemma scroll_page_terminates_witness :
  exists n l,
    (forall fuel, (n < fuel)%nat ->
       scroll_page fuel 2 (fresh growing_page) = Some l)
    /\ current_scroll l = Z.of_nat n
    /\ current_scroll l <= Z.max 0 2.
Proof.
  apply (scroll_page_terminates 2 growing_page). lia.
Defined.

End ScrollClaims.

(* ===================================================================== *)
(** ** Properties of the metadata update *)
(* ===================================================================== *)

Section MetadataFacts.
Import Crawl.
Implicit Types (metadata : gmap string (gmap string Z)) (d domain : string).
Lemma get0_empty k : get0 ∅ k = 0.
Proof. reflexivity. Qed.

Lemma get0_insert_ne (r : gmap string Z) k k' v :
  k <> k' -> get0 (<[k := v]> r) k' = get0 r k'.
Proof. intros Hne. unfold get0. now rewrite lookup_insert_ne. Qed.

Lemma get0_insert_eq (r : gmap string Z) k v : get0 (<[k := v]> r) k = v.
Proof. unfold get0. now rewrite lookup_insert_eq. Qed.

Lemma add_to_metadata_insert metadata domain ok :
  _add_to_metadata metadata domain ok
  = <[domain := counted (get_record metadata domain) ok]> metadata.
Proof.
  unfold _add_to_metadata, set_field, counted, get_record.
  apply map_eq. intros d.
  destruct (decide (domain = d)) as [<-|Hne].
  - rewrite lookup_insert_eq, !lookup_alter_eq.
    destruct (decide (is_Some (metadata !! domain))) as [[r Hr]|Hnone].
    + rewrite Hr. simpl. now rewrite get0_insert_ne by discriminate.
    + rewrite lookup_insert_eq.
      assert (Hd : metadata !! domain = None)
        by (destruct (metadata !! domain); [exfalso; eauto | reflexivity]).
      rewrite Hd. simpl. now rewrite get0_insert_ne by discriminate.
  - rewrite lookup_insert_ne, !lookup_alter_ne by assumption.
    destruct (decide (is_Some (metadata !! domain))); [reflexivity|].
    now rewrite lookup_insert_ne.
Qed.

Lemma get0_counted_total r ok :
  get0 (counted r ok) "total" = get0 r "total" + 1.
Proof. unfold counted. apply get0_insert_eq. Qed.

Lemma get0_counted_successful r ok :
  get0 (counted r ok) "successful" = get0 r "successful" + Z.b2z ok.
Proof.
  unfold counted. rewrite get0_insert_ne by discriminate. apply get0_insert_eq.
Qed.

Lemma get_record_add_eq metadata domain ok :
  get_record (_add_to_metadata metadata domain ok) domain
  = counted (get_record metadata domain) ok.
Proof.
  rewrite add_to_metadata_insert. unfold get_record at 1.
  now rewrite lookup_insert_eq.
Qed.

Lemma get_record_add_ne metadata domain ok d :
  d <> domain ->
  get_record (_add_to_metadata metadata domain ok) d = get_record metadata d.
Proof.
  intros Hne. rewrite add_to_metadata_insert. unfold get_record.
  now rewrite lookup_insert_ne by congruence.
Qed.


Lemma sum_total_insert metadata d r :
  sum_total (<[d := r]> metadata)
  = sum_total metadata - get0 (get_record metadata d) "total" + get0 r "total".
Proof.
  unfold sum_total, get_record.
  destruct (metadata !! d) as [r0|] eqn:E; simpl.
  - rewrite (map_fold_delete_L _ _ d r0 metadata); [|intros; lia|assumption].
    rewrite <- (insert_delete_eq metadata).
    rewrite map_fold_insert_L; [lia|intros; lia|apply lookup_delete_eq].
  - rewrite map_fold_insert_L; [|intros; lia|assumption].
    rewrite get0_empty. lia.
Qed.

Lemma sum_total_add metadata domain ok :
  sum_total (_add_to_metadata metadata domain ok) = sum_total metadata + 1.
Proof.
  rewrite add_to_metadata_insert, sum_total_insert, get0_counted_total. lia.
Qed.

Lemma metrics_inv_empty : metrics_inv 0 ∅.
Proof.
  split.
  - intros d r Hd. rewrite lookup_empty in Hd. discriminate.
  - reflexivity.
Qed.

Lemma metrics_inv_add n metadata domain ok :
  metrics_inv n metadata ->
  metrics_inv (S n) (_add_to_metadata metadata domain ok).
Proof.
  intros [Hrec Hsum]. split.
  - intros d r. rewrite add_to_metadata_insert.
    destruct (decide (domain = d)) as [<-|Hne].
    + rewrite lookup_insert_eq. intros [= <-].
      rewrite get0_counted_total, get0_counted_successful.
      assert (0 <= get0 (get_record metadata domain) "successful"
                <= get0 (get_record metadata domain) "total") as Hold.
      { unfold get_record. destruct (metadata !! domain) as [r0|] eqn:E; simpl.
        - eapply Hrec; eassumption.
        - rewrite !get0_empty. lia. }
      destruct ok; simpl; lia.
    + rewrite lookup_insert_ne by assumption. apply Hrec.
  - rewrite sum_total_add, Hsum. lia.
Qed.

Lemma add_to_metadata_monotone metadata domain ok d :
  successful_of metadata d
  <= successful_of (_add_to_metadata metadata domain ok) d
  /\ total_of metadata d <= total_of (_add_to_metadata metadata domain ok) d.
Proof.
  unfold successful_of, total_of.
  destruct (decide (d = domain)) as [->|Hne].
  - rewrite get_record_add_eq, get0_counted_total, get0_counted_successful.
    destruct ok; simpl; lia.
  - rewrite get_record_add_ne by assumption. lia.
Qed.


(** C9.  [_add_to_metadata metadata domain ok] changes only the entry of
    [domain]: every other domain keeps its record; for [domain] the counter
    [total] grows by exactly 1 and [successful] by exactly 1 when [ok] is
    true and by 0 when it is false, its other fields being kept; and when
    [domain] was absent its record is created with these values. *)
Theorem add_to_metadata_frame metadata domain ok :
  (forall d, d <> domain ->
     _add_to_metadata metadata domain ok !! d = metadata !! d)
  /\ total_of (_add_to_metadata metadata domain ok) domain
     = total_of metadata domain + 1
  /\ successful_of (_add_to_metadata metadata domain ok) domain
     = successful_of metadata domain + (if ok then 1 else 0)
  /\ (forall k, k <> "successful" -> k <> "total" ->
        get_record (_add_to_metadata metadata domain ok) domain !! k
        = get_record metadata domain !! k)
  /\ (metadata !! domain = None ->
        _add_to_metadata metadata domain ok !! domain
        = Some (<["total" := 1]> (<["successful" := if ok then 1 else 0]> ∅))).
Proof.
  repeat split.
  - intros d Hne. rewrite add_to_metadata_insert.
    now rewrite lookup_insert_ne by congruence.
  - unfold total_of. now rewrite get_record_add_eq, get0_counted_total.
  - unfold successful_of.
    rewrite get_record_add_eq, get0_counted_successful. now destruct ok.
  - intros k Hs Ht. rewrite get_record_add_eq. unfold counted.
    now rewrite !lookup_insert_ne by congruence.
  - intros Hnone. rewrite add_to_metadata_insert, lookup_insert_eq.
    unfold get_record. rewrite Hnone. simpl. unfold counted.
    rewrite !get0_empty. now destruct ok.
Qed.

Lemma add_to_metadata_frame_witness :
  _add_to_metadata Env.one_domain "github.com" true !! "medium.com"
  = Env.one_domain !! "medium.com"
  /\ _add_to_metadata Env.one_domain "github.com" true !! "github.com"
     = Some (<["total" := 1]> (<["successful" := 1]> ∅)).
Proof.
  split.
  - apply (proj1 (add_to_metadata_frame Env.one_domain "github.com" true)).
    discriminate.
  - apply (proj2 (proj2 (proj2 (proj2
             (add_to_metadata_frame Env.one_domain "github.com" true))))).
    reflexivity.
Defined.

End MetadataFacts.

(* ===================================================================== *)
(** ** Properties of the crawl step *)
(* ===================================================================== *)

Section OrchestratorFacts.
Import Crawl.

Context {Crawler User W : Type} {env : Collaborators Crawler User W}.

Implicit Types (user : User) (link : string) (links pre post : list string)
  (w : World (W := W)) (metadata : gmap string (gmap string Z)).

(** *** One link *)

Lemma crawl_link_success link user w crawler x d x' :
  get_crawler link (ext w) = (Returned crawler, x) ->
  urlparse_netloc link = Returned d ->
  extract crawler link user x = (None, x') ->
  _crawl_link link user w = (Returned (true, d), with_ext x' w).
Proof. intros Hc Hd He. unfold _crawl_link. now rewrite Hc, Hd, He. Qed.

Lemma crawl_link_caught link user w crawler x d e x' :
  get_crawler link (ext w) = (Returned crawler, x) ->
  urlparse_netloc link = Returned d ->
  extract crawler link user x = (Some e, x') ->
  _crawl_link link user w = (Returned (false, d), caught e x' w).
Proof. intros Hc Hd He. unfold _crawl_link. now rewrite Hc, Hd, He. Qed.

Lemma crawl_link_unresolved link user w e x :
  get_crawler link (ext w) = (Raised e, x) ->
  _crawl_link link user w = (Raised e, with_ext x w).
Proof. intros Hc. unfold _crawl_link. now rewrite Hc. Qed.

Lemma crawl_link_unparsed link user w crawler x e :
  get_crawler link (ext w) = (Returned crawler, x) ->
  urlparse_netloc link = Raised e ->
  _crawl_link link user w = (Raised e, with_ext x w).
Proof. intros Hc Hd. unfold _crawl_link. now rewrite Hc, Hd. Qed.

(** A link that was counted resolved and parsed, and is counted under its
    network location. *)
Lemma crawl_link_returned link user w ok d w' :
  _crawl_link link user w = (Returned (ok, d), w') ->
  urlparse_netloc link = Returned d
  /\ output_metadata w' = output_metadata w
  /\ exists crawler x, get_crawler link (ext w) = (Returned crawler, x).
Proof.
  unfold _crawl_link.
  destruct (get_crawler link (ext w)) as [[crawler|e] x]; [|discriminate].
  destruct (urlparse_netloc link) as [d'|e]; [|discriminate].
  destruct (extract crawler link user x) as [[e|] x']; cbn;
    intros [= <- <- <-]; eauto.
Qed.

Lemma crawl_link_resolving link user w :
  resolves link ->
  exists ok d w', _crawl_link link user w = (Returned (ok, d), w').
Proof.
  intros [Hc [d Hd]]. destruct (Hc (ext w)) as (crawler & x & Hx).
  destruct (extract crawler link user x) as [[e|] x'] eqn:He.
  - erewrite crawl_link_caught by eassumption. eauto.
  - erewrite crawl_link_success by eassumption. eauto.
Qed.

(** *** The loop *)

Lemma crawl_step_eq user link metadata n w :
  crawl_step user link (metadata, n) w
  = match _crawl_link link user w with
    | (Returned (ok, d), w') =>
        (Returned (_add_to_metadata metadata d ok, n + Z.b2z ok), w')
    | (Raised e, w') => (Raised e, w')
    end.
Proof.
  unfold crawl_step, bind.
  destruct (_crawl_link link user w) as [[[ok d]|e] w']; reflexivity.
Qed.

Lemma crawl_loop_cons user link links st w :
  crawl_loop user (link :: links) st w
  = match crawl_step user link st w with
    | (Returned st', w') => crawl_loop user links st' w'
    | (Raised e, w') => (Raised e, w')
    end.
Proof. reflexivity. Qed.

Lemma crawl_loop_app user pre post : forall st w,
  crawl_loop user (pre ++ post) st w
  = match crawl_loop user pre st w with
    | (Returned st', w') => crawl_loop user post st' w'
    | (Raised e, w') => (Raised e, w')
    end.
Proof.
  induction pre as [|link pre IH]; intros st w; [reflexivity|].
  simpl app. rewrite !crawl_loop_cons.
  destruct (crawl_step user link st w) as [[st'|e] w']; [apply IH|reflexivity].
Qed.


(** A step that returns has counted its link, under its network location. *)
Lemma crawl_step_returned user link metadata n w metadata' n' w' :
  crawl_step user link (metadata, n) w = (Returned (metadata', n'), w') ->
  exists ok d,
    _crawl_link link user w = (Returned (ok, d), w')
    /\ urlparse_netloc link = Returned d
    /\ metadata' = _add_to_metadata metadata d ok
    /\ n' = n + Z.b2z ok.
Proof.
  rewrite crawl_step_eq.
  destruct (_crawl_link link user w) as [[[ok d]|e] w1] eqn:E; [|discriminate].
  intros [= <- <- <-]. exists ok, d.
  destruct (crawl_link_returned _ _ _ _ _ _ E) as (Hd & _). auto.
Qed.

Lemma crawl_loop_invariant user links : forall metadata n w metadata' n' w' k,
  crawl_loop user links (metadata, n) w = (Returned (metadata', n'), w') ->
  metrics_inv k metadata ->
  metrics_inv (k + length links) metadata'.
Proof.
  induction links as [|link links IH]; intros metadata n w metadata' n' w' k.
  - intros [= <- <- <-]. now rewrite Nat.add_0_r.
  - rewrite crawl_loop_cons.
    destruct (crawl_step user link (metadata, n) w) as [[[m1 n1]|e] w1] eqn:E;
      [|discriminate].
    intros Hloop Hinv.
    apply crawl_step_returned in E as (ok & d & _ & _ & -> & _).
    replace (k + length (link :: links))%nat with (S k + length links)%nat
      by (simpl; lia).
    eapply IH; [eassumption|]. now apply metrics_inv_add.
Qed.

Lemma domain_count_cons d link links :
  links_of_domain d (link :: links)
  = ((if netloc_is d link then 1 else 0)
     + links_of_domain d links)%nat.
Proof.
  unfold links_of_domain. simpl.
  now destruct (netloc_is d link).
Qed.

Lemma netloc_is_true d link :
  netloc_is d link = true <-> urlparse_netloc link = Returned d.
Proof.
  unfold netloc_is. destruct (urlparse_netloc link) as [d'|e].
  - rewrite bool_decide_eq_true. split; congruence.
  - split; discriminate.
Qed.

(** The total of a domain grows by the number of links of that domain. *)
Lemma crawl_loop_totals user links : forall metadata n w metadata' n' w',
  crawl_loop user links (metadata, n) w = (Returned (metadata', n'), w') ->
  forall d, total_of metadata' d
            = total_of metadata d + Z.of_nat (links_of_domain d links).
Proof.
  induction links as [|link links IH]; intros metadata n w metadata' n' w'.
  - intros [= <- <- <-] d. unfold links_of_domain. simpl. lia.
  - rewrite crawl_loop_cons.
    destruct (crawl_step user link (metadata, n) w) as [[[m1 n1]|e] w1] eqn:E;
      [|discriminate].
    intros Hloop d.
    apply crawl_step_returned in E as (ok & dl & _ & Hdl & -> & _).
    rewrite (IH _ _ _ _ _ _ Hloop d), domain_count_cons.
    unfold total_of.
    destruct (decide (d = dl)) as [->|Hne].
    + rewrite get_record_add_eq, get0_counted_total.
      rewrite (proj2 (netloc_is_true dl link) Hdl). lia.
    + rewrite get_record_add_ne by assumption.
      destruct (netloc_is d link) eqn:Hn; [|lia].
      apply netloc_is_true in Hn. congruence.
Qed.

(** The domains of the metrics are the network locations of the links. *)
Lemma crawl_loop_domains user links : forall metadata n w metadata' n' w',
  crawl_loop user links (metadata, n) w = (Returned (metadata', n'), w') ->
  forall d, is_Some (metadata' !! d)
            <-> is_Some (metadata !! d)
                \/ exists link, In link links /\ urlparse_netloc link = Returned d.
Proof.
  induction links as [|link links IH]; intros metadata n w metadata' n' w'.
  - intros [= <- <- <-] d. split; [auto|]. intros [H|(l & [] & _)]. exact H.
  - rewrite crawl_loop_cons.
    destruct (crawl_step user link (metadata, n) w) as [[[m1 n1]|e] w1] eqn:E;
      [|discriminate].
    intros Hloop d.
    apply crawl_step_returned in E as (ok & dl & _ & Hdl & -> & _).
    rewrite (IH _ _ _ _ _ _ Hloop d), add_to_metadata_insert.
    rewrite lookup_insert_is_Some. split.
    + intros [[<-|[_ H]]|(l & Hin & Hl)]; [right|left|right]; eauto.
      * exists link. split; [now left|assumption].
      * exists l. split; [now right|assumption].
    + intros [H|(l & [<-|Hin] & Hl)].
      * destruct (decide (dl = d)); auto.
      * left. left. congruence.
      * right. eauto.
Qed.

(** The loop writes no output metadata. *)
Lemma crawl_loop_output user links : forall st w st' w',
  crawl_loop user links st w = (Returned st', w') ->
  output_metadata w' = output_metadata w.
Proof.
  induction links as [|link links IH]; intros st w st' w'.
  - now intros [= <- <-].
  - rewrite crawl_loop_cons. destruct st as [metadata n].
    destruct (crawl_step user link (metadata, n) w) as [[[m1 n1]|e] w1] eqn:E;
      [|discriminate].
    intros Hloop.
    apply crawl_step_returned in E as (ok & dl & E & _).
    apply crawl_link_returned in E as (_ & Hout & _).
    rewrite (IH _ _ _ _ Hloop). exact Hout.
Qed.

(** The loop returns when every link resolves. *)
Lemma crawl_loop_returns user links :
  (forall link, In link links -> resolves link) ->
  forall st w, exists st' w', crawl_loop user links st w = (Returned st', w').
Proof.
  induction links as [|link links IH]; intros Hres st w.
  - simpl. unfold ret. eauto.
  - rewrite crawl_loop_cons. destruct st as [metadata n].
    rewrite crawl_step_eq.
    destruct (crawl_link_resolving link user w) as (ok & d & w1 & ->).
    { apply Hres. now left. }
    apply IH. intros l Hl. apply Hres. now right.
Qed.


(** *** The step *)

Lemma crawl_links_eq user links w :
  crawl_links user links w
  = match crawl_loop user links (∅, 0) (started (length links) w) with
    | (Returned (metadata, ok), w') =>
        (Returned links, finished metadata ok (length links) w')
    | (Raised e, w') => (Raised e, w')
    end.
Proof.
  unfold crawl_links, bind, logger, add_output_metadata, ret. cbn.
  fold (started (length links) w).
  destruct (crawl_loop user links (∅, 0) (started (length links) w))
    as [[[metadata ok]|e] w']; reflexivity.
Qed.

Lemma crawl_links_returns user links :
  (forall link, In link links -> resolves link) ->
  forall w, exists w', crawl_links user links w = (Returned links, w').
Proof.
  intros Hres w. rewrite crawl_links_eq.
  destruct (crawl_loop_returns user links Hres (∅, 0) (started (length links) w))
    as ([metadata ok] & w' & ->).
  eauto.
Qed.

(** What a run that returns has handed over. *)
Lemma crawl_links_returned user links w v w' :
  crawl_links user links w = (Returned v, w') ->
  v = links
  /\ exists metadata ok w1,
       crawl_loop user links (∅, 0) (started (length links) w)
       = (Returned (metadata, ok), w1)
       /\ w' = finished metadata ok (length links) w1
       /\ output_metadata w'
          = output_metadata w ++ [("crawled_links", metadata)].
Proof.
  rewrite crawl_links_eq.
  destruct (crawl_loop user links (∅, 0) (started (length links) w))
    as [[[metadata ok]|e] w1] eqn:E; [|discriminate].
  intros [= <- <-]. split; [reflexivity|].
  exists metadata, ok, w1. repeat split.
  simpl. now rewrite (crawl_loop_output _ _ _ _ _ _ E).
Qed.


(** A run raises only what resolving or parsing one of its links raises. *)
Lemma crawl_link_raised link user w e w' :
  _crawl_link link user w = (Raised e, w') ->
  (exists x, get_crawler link (ext w) = (Raised e, x))
  \/ urlparse_netloc link = Raised e.
Proof.
  unfold _crawl_link.
  destruct (get_crawler link (ext w)) as [[crawler|e0] x].
  - destruct (urlparse_netloc link) as [d|e0].
    + destruct (extract crawler link user x) as [[e1|] x']; discriminate.
    + intros [= <- <-]. now right.
  - intros [= <- <-]. left. eauto.
Qed.

Lemma crawl_loop_raised user links : forall st w e w',
  crawl_loop user links st w = (Raised e, w') ->
  exists link, In link links
    /\ ((exists x0 x, get_crawler link x0 = (Raised e, x))
        \/ urlparse_netloc link = Raised e).
Proof.
  induction links as [|link links IH]; intros st w e w'; [discriminate|].
  rewrite crawl_loop_cons. destruct st as [metadata n]. rewrite crawl_step_eq.
  destruct (_crawl_link link user w) as [[[ok d]|e0] w1] eqn:E.
  - intros Hloop. destruct (IH _ _ _ _ Hloop) as (l & Hin & Hl).
    exists l. split; [now right|exact Hl].
  - intros [= <- <-]. exists link. split; [now left|].
    destruct (crawl_link_raised _ _ _ _ _ E) as [[x Hx]|Hp]; eauto.
Qed.

Lemma crawl_links_raised user links w e w' :
  crawl_links user links w = (Raised e, w') ->
  exists link, In link links
    /\ ((exists x0 x, get_crawler link x0 = (Raised e, x))
        \/ urlparse_netloc link = Raised e).
Proof.
  rewrite crawl_links_eq.
  destruct (crawl_loop user links (∅, 0) (started (length links) w))
    as [[[metadata ok]|e0] w1] eqn:E; [discriminate|].
  intros [= <- <-]. eapply crawl_loop_raised, E.
Qed.

(** *** The claims about the step *)

(** C2 (amended).  When [dispatcher.get_crawler] raises for a link of the
    batch, the exception leaves [_crawl_link] and [crawl_links]: the link is
    not counted, nothing is logged for it, the links after it are not
    processed and no metrics are handed over. *)
Theorem resolution_failure_propagates user pre link post w st w1 e x :
  crawl_loop user pre (∅, 0) (started (length (pre ++ link :: post)) w)
  = (Returned st, w1) ->
  get_crawler link (ext w1) = (Raised e, x) ->
  _crawl_link link user w1 = (Raised e, with_ext x w1)
  /\ crawl_links user (pre ++ link :: post) w = (Raised e, with_ext x w1)
  /\ log (with_ext x w1) = log w1
  /\ output_metadata (with_ext x w1) = output_metadata w.
Proof.
  intros Hpre Hc.
  pose proof (crawl_link_unresolved _ user _ _ _ Hc) as Hlink.
  split; [exact Hlink|]. split; [|split].
  - rewrite crawl_links_eq, crawl_loop_app, Hpre, crawl_loop_cons.
    destruct st as [metadata n]. now rewrite crawl_step_eq, Hlink.
  - reflexivity.
  - simpl. now rewrite (crawl_loop_output _ _ _ _ _ _ Hpre).
Qed.

(** C3 (amended).  Whenever [crawl_links] returns, it returns exactly the
    list of links it was given; and it does return on every batch all of
    whose links resolve. *)
Theorem crawl_links_passes_links_through user links :
  (forall w v w', crawl_links user links w = (Returned v, w') -> v = links)
  /\ ((forall link, In link links -> resolves link) ->
      forall w, exists w', crawl_links user links w = (Returned links, w')).
Proof.
  split; [|apply crawl_links_returns].
  intros w v w' Hrun. now apply crawl_links_returned in Hrun as [-> _].
Qed.

(** C4.  After every update of a run the metrics satisfy the invariant: for
    every domain present [0 <= successful <= total], and the totals sum up
    to the number of links processed so far; an update never lowers a
    counter; and the metrics handed over at the end of a run satisfy the
    invariant for the length of the batch. *)
Theorem metrics_invariant user links :
  (forall pre post w0 metadata n w,
     links = pre ++ post ->
     crawl_loop user pre (∅, 0) w0 = (Returned (metadata, n), w) ->
     metrics_inv (length pre) metadata)
  /\ (forall metadata domain ok d,
        successful_of metadata d
        <= successful_of (_add_to_metadata metadata domain ok) d
        /\ total_of metadata d
           <= total_of (_add_to_metadata metadata domain ok) d)
  /\ (forall w v w',
        crawl_links user links w = (Returned v, w') ->
        exists metadata,
          output_metadata w'
          = output_metadata w ++ [("crawled_links", metadata)]
          /\ metrics_inv (length links) metadata).
Proof.
  split; [|split].
  - intros pre post w0 metadata n w _ Hpre.
    apply (crawl_loop_invariant _ _ _ _ _ _ _ _ 0 Hpre), metrics_inv_empty.
  - intros. apply add_to_metadata_monotone.
  - intros w v w' Hrun.
    apply crawl_links_returned in Hrun
      as (_ & metadata & ok & w1 & Hloop & _ & Hout).
    exists metadata. split; [exact Hout|].
    apply (crawl_loop_invariant _ _ _ _ _ _ _ _ 0 Hloop), metrics_inv_empty.
Qed.

(** C10.  In the metrics a run hands over, the total of every domain [d] is
    the number of links of the batch whose [urlparse(link).netloc] is [d],
    and the domains present are exactly these network locations; in
    particular the links without a network location are all counted under
    the empty string. *)
Theorem links_counted_under_netloc user links w v w' :
  crawl_links user links w = (Returned v, w') ->
  exists metadata,
    output_metadata w' = output_metadata w ++ [("crawled_links", metadata)]
    /\ (forall d, total_of metadata d = Z.of_nat (links_of_domain d links))
    /\ (forall d, is_Some (metadata !! d)
                  <-> exists link, In link links
                                   /\ urlparse_netloc link = Returned d)
    /\ total_of metadata "" = Z.of_nat (links_of_domain "" links).
Proof.
  intros Hrun.
  apply crawl_links_returned in Hrun
    as (_ & metadata & ok & w1 & Hloop & _ & Hout).
  exists metadata. split; [exact Hout|].
  assert (Htot : forall d,
             total_of metadata d = Z.of_nat (links_of_domain d links)).
  { intros d. rewrite (crawl_loop_totals _ _ _ _ _ _ _ _ Hloop d).
    unfold total_of, get_record. now rewrite lookup_empty. }
  split; [exact Htot|]. split; [|apply Htot].
  intros d. rewrite (crawl_loop_domains _ _ _ _ _ _ _ _ Hloop d).
  rewrite lookup_empty. split.
  - intros [[? [=]]|H]. exact H.
  - auto.
Qed.

End OrchestratorFacts.

Section EnvExamples.
Import Crawl Env.

Example netloc_medium : netloc "https://medium.com/p/1" = Returned "medium.com".
Proof. reflexivity. Qed.

Example netloc_not_a_url : netloc "not a url" = Returned "".
Proof. reflexivity. Qed.

Example netloc_open_bracket :
  netloc "http://[" = Raised (mkExn "ValueError" "Invalid IPv6 URL").
Proof. reflexivity. Qed.

End EnvExamples.

(* ===================================================================== *)
(** ** The crawl step at the concrete environment *)
(* ===================================================================== *)

Section EnvClaims.
Import Crawl Env.

Local Abbreviation run_lenient := (crawl_links (env := lenient)).
Local Abbreviation run_strict := (crawl_links (env := strict)).
Local Abbreviation loop_lenient := (crawl_loop (env := lenient)).

Lemma batch_resolves link :
  In link batch -> resolves (env := lenient) link.
Proof.
  intros [<-|[<-|[<-|[]]]]; (split; [intros x; eexists _, _|eexists]);
    reflexivity.
Qed.

(** C2 (as stated, refuted).  With a dispatcher that signals
    [InvalidURLError] for ["not a url"], the run on a batch that holds this
    entry raises that error: nothing is handed over, nothing is logged for
    the entry, and the link after it is never fetched (one document has been
    stored, for the link before it). *)
Lemma resolution_failure_aborts_batch :
  fst (get_crawler (Collaborators := strict) "not a url" 1%nat)
  = Raised (mkExn "InvalidURLError" "not a url")
  /\ run_strict paul batch_with_text world0
     = (Raised (mkExn "InvalidURLError" "not a url"),
        mkWorld 1%nat [LogStarting 3] []).
Proof. split; reflexivity. Qed.

Lemma resolution_failure_propagates_witness :
  _crawl_link (env := strict) "not a url" paul
    (started 3 after_first)
  = (Raised (mkExn "InvalidURLError" "not a url"),
     with_ext 1%nat (started 3 after_first))
  /\ run_strict paul batch_with_text world0
     = (Raised (mkExn "InvalidURLError" "not a url"),
        with_ext 1%nat (started 3 after_first))
  /\ log (with_ext 1%nat (started 3 after_first)) = log (started 3 after_first)
  /\ output_metadata (with_ext 1%nat (started 3 after_first))
     = output_metadata world0.
Proof.
  apply (resolution_failure_propagates (env := strict) paul
           ["https://medium.com/p/1"] "not a url" ["https://github.com/a/b"]
           world0 (first_metrics, 1) (started 3 after_first)
           (mkExn "InvalidURLError" "not a url") 1%nat); reflexivity.
Defined.

(** C3 (as stated, refuted).  [urlparse] raises [ValueError] on a link
    whose network location opens a bracket without closing it; with a
    dispatcher that resolves every link, the run on a batch that holds such
    a link raises that error instead of returning the batch. *)
Lemma crawl_links_may_raise :
  run_lenient paul batch_with_bracket world0
  = (Raised (mkExn "ValueError" "Invalid IPv6 URL"),
     mkWorld 1%nat [LogStarting 3] []).
Proof. reflexivity. Qed.

Lemma crawl_links_passes_links_through_witness :
  exists w', run_lenient paul batch world0 = (Returned batch, w').
Proof.
  apply (proj2 (crawl_links_passes_links_through (env := lenient) paul batch)).
  exact batch_resolves.
Defined.

Lemma metrics_invariant_witness :
  metrics_inv 3 batch_metrics
  /\ exists metadata,
       output_metadata (snd (run_lenient paul batch world0))
       = output_metadata world0 ++ [("crawled_links", metadata)]
       /\ metrics_inv 3 metadata.
Proof.
  split.
  - apply (proj1 (metrics_invariant (env := lenient) paul batch)
             batch [] world0 batch_metrics 2
             (mkWorld 2%nat [LogCrawlError "404 Not Found"] []));
      reflexivity.
  - apply (proj2 (proj2 (metrics_invariant (env := lenient) paul batch))
             world0 batch).
    vm_compute. reflexivity.
Defined.

Lemma links_counted_under_netloc_witness :
  exists metadata,
    output_metadata (snd (run_lenient paul batch_with_texts world0))
    = output_metadata world0 ++ [("crawled_links", metadata)]
    /\ (forall d, total_of metadata d
                  = Z.of_nat (links_of_domain (env := lenient) d batch_with_texts))
    /\ (forall d, is_Some (metadata !! d)
                  <-> exists link, In link batch_with_texts
                                   /\ netloc link = Returned d)
    /\ total_of metadata "" = Z.of_nat 2.
Proof.
  apply (links_counted_under_netloc (env := lenient) paul batch_with_texts
           world0 batch_with_texts).
  vm_compute. reflexivity.
Defined.

End EnvClaims.

(* ===================================================================== *)
(** ** Further properties of the scroll loop *)
(* ===================================================================== *)

Section ScrollMore.
Import Scroll.

Variable scroll_limit : Z.
Variable h : nat -> Z.

Lemma break_at_last_turn :
  scroll_limit <> 0 -> break_at scroll_limit h (last_turn scroll_limit) = true.
Proof.
  intros Hset. unfold break_at, truthy.
  replace (scroll_limit =? 0) with false by (symmetry; apply Z.eqb_neq; lia).
  replace (scroll_limit <=? Z.of_nat (last_turn scroll_limit)) with true
    by (symmetry; apply Z.leb_le; unfold last_turn; lia).
  apply orb_true_r.
Qed.


(** X1.  What a finished run has done: it has issued one scroll command
    more than its counter says, one height reading more than scroll
    commands, and has slept 5 seconds per scroll command; its two heights
    are the last two readings, and the page is the one it was given. *)
Theorem scroll_page_accounting (fuel : nat) (l : Locals) :
  scroll_page fuel scroll_limit (fresh h) = Some l ->
  Z.of_nat (scroll_commands l) = current_scroll l + 1
  /\ reads (driver l) = S (scroll_commands l)
  /\ slept (driver l) = 5 * Z.of_nat (scroll_commands l)
  /\ last_height l = h (scroll_commands l - 1)%nat
  /\ new_height l = h (scroll_commands l)
  /\ heights (driver l) = h.
Proof.
  intros Hrun. apply scroll_page_finished in Hrun as (n & _ & -> & _).
  unfold scroll_commands; cbn [locals_at at_iteration driver scrolls reads
    slept heights current_scroll last_height new_height].
  replace (S n - 1)%nat with n by lia.
  repeat split; lia.
Qed.

(** X2.  With a positive limit a run never issues more than [limit + 1]
    scroll commands, and [limit + 1] iterations are enough for it to
    end. *)
Theorem scroll_commands_bounded :
  0 < scroll_limit ->
  (forall fuel l, scroll_page fuel scroll_limit (fresh h) = Some l ->
     Z.of_nat (scroll_commands l) <= scroll_limit + 1)
  /\ (forall fuel, (Z.to_nat scroll_limit < fuel)%nat ->
        exists l, scroll_page fuel scroll_limit (fresh h) = Some l).
Proof.
  intros Hpos.
  assert (HN : break_at scroll_limit h (last_turn scroll_limit) = true)
    by (apply break_at_last_turn; lia).
  split.
  - intros fuel l Hrun.
    apply scroll_page_finished in Hrun as (n & _ & -> & _ & Hlt).
    assert (n <= last_turn scroll_limit)%nat as Hle.
    { destruct (le_lt_dec n (last_turn scroll_limit)) as [|Hgt]; [assumption|].
      rewrite (Hlt _ Hgt) in HN. discriminate. }
    unfold last_turn in Hle. unfold scroll_commands; simpl. lia.
  - intros fuel Hfuel.
    assert (last_turn scroll_limit = Z.to_nat scroll_limit) as HNeq
      by (unfold last_turn; lia).
    destruct (first_true_below (break_at scroll_limit h) (S (last_turn scroll_limit)))
      as [Hnone|(n & Hn & Hp & Hlt)].
    { rewrite Hnone in HN by lia. discriminate. }
    exists (locals_at h n).
    rewrite (scroll_page_first_break scroll_limit h n fuel Hlt Hp).
    now replace (n <? fuel)%nat with true by (symmetry; apply Nat.ltb_lt; lia).
Qed.


(** X4.  Whatever the limit, a page whose height first repeats at reading
    [k + 1], with [k] below a set limit, is scrolled exactly [k + 1] times:
    the loop stops there on the stability test, the limit test being
    false. *)
Theorem scroll_page_stops_at_first_repeat (k fuel : nat) :
  (forall i, (i < k)%nat -> h (S i) <> h i) ->
  h (S k) = h k ->
  scroll_limit = 0 \/ Z.of_nat k < scroll_limit ->
  (k < fuel)%nat ->
  exists l, scroll_page fuel scroll_limit (fresh h) = Some l
    /\ scroll_commands l = S k
    /\ height_stable l = true
    /\ limit_reached scroll_limit l = false.
Proof.
  intros Hchg Hrep Hlim Hfuel. exists (locals_at h k).
  assert (Hno : forall i, (i <= k)%nat ->
            truthy scroll_limit && (scroll_limit <=? Z.of_nat i) = false).
  { intros i Hi. destruct Hlim as [->|Hlt]; [reflexivity|].
    replace (scroll_limit <=? Z.of_nat i) with false
      by (symmetry; apply Z.leb_gt; lia).
    apply andb_false_r. }
  rewrite (scroll_page_first_break scroll_limit h k fuel).
  - replace (k <? fuel)%nat with true by (symmetry; apply Nat.ltb_lt; lia).
    split; [reflexivity|]. split; [reflexivity|]. split.
    + unfold height_stable; simpl. apply Z.eqb_eq. assumption.
    + unfold limit_reached; simpl. apply Hno. lia.
  - intros i Hi. unfold break_at. rewrite Hno by lia.
    rewrite orb_false_r. apply Z.eqb_neq. auto.
  - unfold break_at. rewrite Hrep, Z.eqb_refl. reflexivity.
Qed.

End ScrollMore.

Section ScrollMoreWitnesses.
Import Scroll.

Lemma scroll_page_accounting_witness :
  Z.of_nat (scroll_commands (locals_at page_100_150 1))
  = current_scroll (locals_at page_100_150 1) + 1
  /\ reads (driver (locals_at page_100_150 1))
     = S (scroll_commands (locals_at page_100_150 1))
  /\ slept (driver (locals_at page_100_150 1))
     = 5 * Z.of_nat (scroll_commands (locals_at page_100_150 1))
  /\ last_height (locals_at page_100_150 1)
     = page_100_150 (scroll_commands (locals_at page_100_150 1) - 1)%nat
  /\ new_height (locals_at page_100_150 1)
     = page_100_150 (scroll_commands (locals_at page_100_150 1))
  /\ heights (driver (locals_at page_100_150 1)) = page_100_150.
Proof.
  apply (scroll_page_accounting 5 page_100_150 2). reflexivity.
Defined.

Lemma scroll_commands_bounded_witness :
  (forall fuel l, scroll_page fuel 2 (fresh growing_page) = Some l ->
     Z.of_nat (scroll_commands l) <= 2 + 1)
  /\ (forall fuel, (Z.to_nat 2 < fuel)%nat ->
        exists l, scroll_page fuel 2 (fresh growing_page) = Some l).
Proof. apply (scroll_commands_bounded 2 growing_page). lia. Defined.


Lemma scroll_page_stops_at_first_repeat_witness :
  exists l, scroll_page 2 3 (fresh page_100_150) = Some l
    /\ scroll_commands l = 2%nat
    /\ height_stable l = true
    /\ limit_reached 3 l = false.
Proof.
  apply (scroll_page_stops_at_first_repeat 3 page_100_150 1 2).
  - intros i Hi. assert (i = 0%nat) as -> by lia. discriminate.
  - reflexivity.
  - right. lia.
  - lia.
Defined.

End ScrollMoreWitnesses.

Section ScrollAnySession.
Import Scroll.

(** Two sessions whose pages will give the same readings from now on run
    the loop alike, each advancing its own counters by the same amounts. *)
Lemma scroll_loop_alike fuel : forall scroll_limit cs last d d0 l,
  (forall k, heights d (reads d + k) = heights d0 (reads d0 + k)) ->
  scroll_loop fuel scroll_limit cs last d = Some l ->
  exists l0,
    scroll_loop fuel scroll_limit cs last d0 = Some l0
    /\ current_scroll l = current_scroll l0
    /\ last_height l = last_height l0
    /\ new_height l = new_height l0
    /\ (scrolls (driver l) + scrolls d0 = scrolls (driver l0) + scrolls d)%nat
    /\ (reads (driver l) + reads d0 = reads (driver l0) + reads d)%nat
    /\ slept (driver l) + slept d0 = slept (driver l0) + slept d
    /\ heights (driver l) = heights d
    /\ heights (driver l0) = heights d0.
Proof.
  induction fuel as [|fuel IH]; intros scroll_limit cs last d d0 l Hsame;
    [discriminate|].
  cbn [scroll_loop read_height sleep scroll_to_bottom heights reads].
  pose proof (Hsame 0%nat) as H0. rewrite !Nat.add_0_r in H0. rewrite <- H0.
  set (nh := heights d (reads d)).
  set (d' := {| heights := heights d; reads := S (reads d);
                scrolls := _; slept := _ |}).
  set (d0' := {| heights := heights d0; reads := S (reads d0);
                 scrolls := _; slept := _ |}).
  unfold height_stable, limit_reached;
    cbn [new_height last_height current_scroll].
  destruct ((nh =? last) || truthy scroll_limit && (scroll_limit <=? cs)).
  - intros [= <-]. eexists. split; [reflexivity|].
    subst d' d0'. cbn. repeat split; lia.
  - intros Hrun.
    assert (Hnext : forall k,
              heights d' (reads d' + k) = heights d0' (reads d0' + k)).
    { subst d' d0'. cbn. intros k. specialize (Hsame (S k)).
      rewrite !Nat.add_succ_r in Hsame. exact Hsame. }
    destruct (IH _ _ _ _ _ _ Hnext Hrun) as (l0 & Hrun0 & Hl).
    exists l0. split; [exact Hrun0|].
    subst d' d0'. cbn in Hl. destruct Hl as (? & ? & ? & ? & ? & ? & ? & ?).
    cbn [scrolls reads slept] in *.
    repeat split; try assumption; lia.
Qed.

(** X13.  What [scroll_page] does on a freshly loaded page carries over to
    a session that has already been read and scrolled: if it ends on the
    fresh page that gives the readings still to come, it ends on the
    session with the same counter and heights at the break, and the
    session's counters of scroll commands, readings and seconds slept have
    grown by what the fresh page's show. *)
Theorem scroll_page_any_session fuel scroll_limit d l0 :
  scroll_page fuel scroll_limit (fresh (fun k => heights d (reads d + k)))
  = Some l0 ->
  exists l,
    scroll_page fuel scroll_limit d = Some l
    /\ current_scroll l = current_scroll l0
    /\ last_height l = last_height l0
    /\ new_height l = new_height l0
    /\ scrolls (driver l) = (scrolls d + scroll_commands l0)%nat
    /\ reads (driver l) = (reads d + reads (driver l0))%nat
    /\ slept (driver l) = slept d + slept (driver l0)
    /\ heights (driver l) = heights d.
Proof.
  unfold scroll_page. cbn [read_height fresh heights reads scrolls slept].
  rewrite Nat.add_0_r. intros Hrun.
  set (d1 := {| heights := heights d; reads := S (reads d);
                scrolls := scrolls d; slept := slept d |}).
  set (d2 := {| heights := fun k => heights d (reads d + k); reads := 1;
                scrolls := 0; slept := 0 |}) in Hrun.
  assert (Hnext : forall k,
            heights d2 (reads d2 + k) = heights d1 (reads d1 + k)).
  { subst d1 d2. cbn. intros k. now rewrite Nat.add_succ_r. }
  destruct (scroll_loop_alike _ _ _ _ _ _ _ Hnext Hrun) as (l & Hrun1 & Hl).
  exists l. split; [exact Hrun1|].
  subst d1 d2. cbn in Hl. destruct Hl as (? & ? & ? & ? & ? & ? & _ & Hh).
  unfold scroll_commands. repeat split; try congruence; try lia.
Qed.

Lemma scroll_page_any_session_witness :
  exists l,
    scroll_page 1 5 (mkDriver page_100_150 1 3 15) = Some l
    /\ current_scroll l = 0
    /\ last_height l = 150
    /\ new_height l = 150
    /\ scrolls (driver l) = 4%nat
    /\ reads (driver l) = 3%nat
    /\ slept (driver l) = 20
    /\ heights (driver l) = page_100_150.
Proof.
  apply (scroll_page_any_session 1 5 (mkDriver page_100_150 1 3 15)
           (locals_at (fun k => page_100_150 (1 + k)) 0)).
  reflexivity.
Defined.

End ScrollAnySession.

(* ===================================================================== *)
(** ** Further properties of the metadata update *)
(* ===================================================================== *)

Section MetadataMore.
Import Crawl.

Implicit Types (metadata : gmap string (gmap string Z)) (d domain : string).

Lemma sum_field_insert k metadata d r :
  sum_field k (<[d := r]> metadata)
  = sum_field k metadata - get0 (get_record metadata d) k + get0 r k.
Proof.
  unfold sum_field, get_record.
  destruct (metadata !! d) as [r0|] eqn:E; simpl.
  - rewrite (map_fold_delete_L _ _ d r0 metadata); [|intros; lia|assumption].
    rewrite <- (insert_delete_eq metadata).
    rewrite map_fold_insert_L; [lia|intros; lia|apply lookup_delete_eq].
  - rewrite map_fold_insert_L; [|intros; lia|assumption].
    rewrite get0_empty. lia.
Qed.

Lemma sum_successful_add metadata domain ok :
  sum_successful (_add_to_metadata metadata domain ok)
  = sum_successful metadata + Z.b2z ok.
Proof.
  unfold sum_successful.
  rewrite add_to_metadata_insert, sum_field_insert, get0_counted_successful.
  lia.
Qed.

Lemma counted_swap (r : gmap string Z) ok1 ok2 :
  counted (counted r ok1) ok2 = counted (counted r ok2) ok1.
Proof.
  unfold counted at 1 3.
  rewrite !get0_counted_total, !get0_counted_successful.
  replace (get0 r "successful" + Z.b2z ok1 + Z.b2z ok2)
    with (get0 r "successful" + Z.b2z ok2 + Z.b2z ok1) by lia.
  unfold counted. apply map_eq. intros k.
  destruct (decide (k = "total")) as [->|Ht].
  { now rewrite !lookup_insert_eq. }
  rewrite !(lookup_insert_ne _ "total") by congruence.
  destruct (decide (k = "successful")) as [->|Hs].
  { now rewrite !lookup_insert_eq. }
  now rewrite !lookup_insert_ne by congruence.
Qed.

Lemma add_to_metadata_swap metadata d1 ok1 d2 ok2 :
  _add_to_metadata (_add_to_metadata metadata d1 ok1) d2 ok2
  = _add_to_metadata (_add_to_metadata metadata d2 ok2) d1 ok1.
Proof.
  destruct (decide (d1 = d2)) as [->|Hne].
  - rewrite (add_to_metadata_insert (_add_to_metadata metadata d2 ok1)).
    rewrite (add_to_metadata_insert (_add_to_metadata metadata d2 ok2)).
    rewrite !get_record_add_eq, !add_to_metadata_insert, !insert_insert_eq.
    now rewrite counted_swap.
  - rewrite (add_to_metadata_insert (_add_to_metadata metadata d1 ok1)).
    rewrite (add_to_metadata_insert (_add_to_metadata metadata d2 ok2)).
    rewrite !get_record_add_ne by congruence.
    rewrite !add_to_metadata_insert. apply insert_insert_ne. congruence.
Qed.

(** X5.  The metrics do not depend on the order in which the outcomes of
    the jobs are counted: counting a list of outcomes and counting any
    rearrangement of it give the same dictionary. *)
Theorem count_outcomes_any_order (outcomes outcomes' : list (bool * string)) :
  Permutation outcomes outcomes' ->
  forall metadata,
    count_outcomes metadata outcomes = count_outcomes metadata outcomes'.
Proof.
  unfold count_outcomes.
  induction 1 as [|[ok d] l l' _ IH|[ok1 d1] [ok2 d2] l|l1 l2 l3 _ IH1 _ IH2];
    intros metadata; simpl.
  - reflexivity.
  - apply IH.
  - now rewrite add_to_metadata_swap.
  - now rewrite IH1.
Qed.

Lemma count_outcomes_any_order_witness :
  count_outcomes ∅
    [(true, "medium.com"); (false, "github.com"); (true, "medium.com")]
  = count_outcomes ∅
      [(false, "github.com"); (true, "medium.com"); (true, "medium.com")].
Proof.
  apply count_outcomes_any_order. apply perm_swap.
Defined.

Lemma sum_successful_count_outcomes outcomes : forall metadata,
  sum_successful (count_outcomes metadata outcomes)
  = sum_successful metadata + successes outcomes.
Proof.
  unfold count_outcomes, successes.
  induction outcomes as [|[ok d] outcomes IH]; intros metadata; simpl.
  - lia.
  - rewrite IH, sum_successful_add. destruct ok; simpl; lia.
Qed.

Lemma dom_counted (r : gmap string Z) ok :
  dom (counted r ok) = record_keys ∪ dom r.
Proof.
  unfold counted, record_keys. rewrite !dom_insert_L.
  apply set_eq. intros k. rewrite !elem_of_union, !elem_of_singleton. tauto.
Qed.

Lemma shaped_add metadata domain ok :
  shaped metadata -> shaped (_add_to_metadata metadata domain ok).
Proof.
  intros Hm d r. rewrite add_to_metadata_insert.
  destruct (decide (domain = d)) as [<-|Hne].
  - rewrite lookup_insert_eq. intros [= <-]. rewrite dom_counted.
    unfold get_record. destruct (metadata !! domain) as [r0|] eqn:E; simpl.
    + rewrite (Hm _ _ E). apply union_idemp_L.
    + rewrite dom_empty_L. apply union_empty_r_L.
  - rewrite lookup_insert_ne by assumption. apply Hm.
Qed.

Lemma shaped_count_outcomes outcomes : forall metadata,
  shaped metadata -> shaped (count_outcomes metadata outcomes).
Proof.
  unfold count_outcomes.
  induction outcomes as [|[ok d] outcomes IH]; intros metadata Hm; simpl.
  - exact Hm.
  - apply IH. now apply shaped_add.
Qed.

Lemma size_add_to_metadata metadata domain ok :
  (size (_add_to_metadata metadata domain ok) <= S (size metadata))%nat.
Proof.
  rewrite add_to_metadata_insert.
  destruct (metadata !! domain) as [r|] eqn:E.
  - rewrite map_size_insert_Some by eauto. lia.
  - rewrite map_size_insert_None by assumption. lia.
Qed.

Lemma size_count_outcomes outcomes : forall metadata,
  (size (count_outcomes metadata outcomes)
   <= size metadata + length outcomes)%nat.
Proof.
  unfold count_outcomes.
  induction outcomes as [|[ok d] outcomes IH]; intros metadata; simpl.
  - lia.
  - specialize (IH (_add_to_metadata metadata d ok)).
    pose proof (size_add_to_metadata metadata d ok). lia.
Qed.

Lemma count_outcomes_cons metadata ok d outcomes :
  count_outcomes metadata ((ok, d) :: outcomes)
  = count_outcomes (_add_to_metadata metadata d ok) outcomes.
Proof. reflexivity. Qed.

(** X10.  What counting a list of outcomes does to the counters of a
    domain: [total] grows by the number of outcomes of that domain and
    [successful] by the number of successful ones among them. *)
Theorem count_outcomes_counters outcomes : forall metadata d,
  total_of (count_outcomes metadata outcomes) d
  = total_of metadata d
    + Z.of_nat (length (List.filter
                          (fun o => bool_decide (snd o = d)) outcomes))
  /\ successful_of (count_outcomes metadata outcomes) d
     = successful_of metadata d
       + Z.of_nat (length (List.filter
                             (fun o => fst o && bool_decide (snd o = d))
                             outcomes)).
Proof.
  induction outcomes as [|[ok dl] outcomes IH]; intros metadata d.
  - simpl. unfold count_outcomes; simpl. lia.
  - rewrite count_outcomes_cons.
    destruct (IH (_add_to_metadata metadata dl ok) d) as [-> ->].
    unfold total_of, successful_of. cbn [List.filter fst snd].
    destruct (decide (dl = d)) as [->|Hne].
    + rewrite get_record_add_eq, get0_counted_total, get0_counted_successful.
      rewrite bool_decide_eq_true_2 by reflexivity.
      destruct ok; simpl; lia.
    + rewrite get_record_add_ne by congruence.
      rewrite bool_decide_eq_false_2 by assumption.
      rewrite andb_false_r. lia.
Qed.

End MetadataMore.

(* ===================================================================== *)
(** ** Further properties of the crawl step *)
(* ===================================================================== *)

Section OrchestratorMore.
Import Crawl.

Context {Crawler User W : Type} {env : Collaborators Crawler User W}.

Implicit Types (user : User) (link : string) (links pre post : list string)
  (w : World (W := W)) (metadata : gmap string (gmap string Z)).

(** A link that was counted has written one error line if it failed, and
    none if it succeeded. *)
Lemma crawl_link_log link user w ok d w' :
  _crawl_link link user w = (Returned (ok, d), w') ->
  exists errors,
    log w' = log w ++ errors
    /\ forallb is_crawl_error errors = true
    /\ Z.of_nat (length errors) + Z.b2z ok = 1.
Proof.
  unfold _crawl_link.
  destruct (get_crawler link (ext w)) as [[crawler|e] x]; [|discriminate].
  destruct (urlparse_netloc link) as [d'|e]; [|discriminate].
  destruct (extract crawler link user x) as [[e|] x']; cbn;
    intros [= <- <- <-].
  - exists [LogCrawlError (exn_str e)]. auto.
  - exists []. rewrite app_nil_r. auto.
Qed.

Lemma successes_cons ok d outcomes :
  successes ((ok, d) :: outcomes) = Z.b2z ok + successes outcomes.
Proof. unfold successes. destruct ok; simpl; lia. Qed.

(** What a loop that returns has done, link by link. *)
Lemma crawl_loop_outcomes user links : forall metadata n w metadata' n' w',
  crawl_loop user links (metadata, n) w = (Returned (metadata', n'), w') ->
  exists outcomes errors,
    Forall2 (fun link o => urlparse_netloc link = Returned (snd o))
            links outcomes
    /\ metadata' = count_outcomes metadata outcomes
    /\ n' = n + successes outcomes
    /\ log w' = log w ++ errors
    /\ forallb is_crawl_error errors = true
    /\ Z.of_nat (length errors) + successes outcomes
       = Z.of_nat (length links).
Proof.
  induction links as [|link links IH]; intros metadata n w metadata' n' w'.
  - intros [= <- <- <-]. exists [], []. rewrite app_nil_r.
    repeat split; auto. unfold successes; simpl. lia.
  - rewrite crawl_loop_cons.
    destruct (crawl_step user link (metadata, n) w) as [[[m1 n1]|e] w1] eqn:E;
      [|discriminate].
    intros Hloop.
    apply crawl_step_returned in E as (ok & d & Hlink & Hd & -> & ->).
    apply crawl_link_log in Hlink as (errs1 & Hlog1 & Herr1 & Hlen1).
    destruct (IH _ _ _ _ _ _ Hloop)
      as (outcomes & errs & Hdom & -> & -> & Hlog & Herr & Hlen).
    exists ((ok, d) :: outcomes), (errs1 ++ errs).
    rewrite successes_cons, forallb_app, length_app, Herr1, Herr.
    repeat split; auto.
    + lia.
    + now rewrite Hlog, Hlog1, app_assoc.
    + simpl length. lia.
Qed.

(** X6.  A run that returns has counted one outcome per link, in the order
    of the batch, each under the network location of its link: the metrics
    it hands over are the count of these outcomes from the empty
    dictionary. *)
Theorem crawl_links_counts_outcomes_in_order user links w v w' :
  crawl_links user links w = (Returned v, w') ->
  exists outcomes,
    Forall2 (fun link o => urlparse_netloc link = Returned (snd o))
            links outcomes
    /\ output_metadata w'
       = output_metadata w ++ [("crawled_links", count_outcomes ∅ outcomes)].
Proof.
  intros Hrun.
  apply crawl_links_returned in Hrun
    as (_ & metadata & ok & w1 & Hloop & _ & Hout).
  apply crawl_loop_outcomes in Hloop
    as (outcomes & errors & Hdom & -> & _).
  exists outcomes. auto.
Qed.

(** X7.  The log of a run that returns: the line that announces the number
    of links, then one error line per failed link and nothing else, then
    the summary line.  The number of successes it reports is the sum of the
    [successful] counters of the metrics handed over, it lies between 0 and
    the number of links, and the error lines make up the difference. *)
Theorem crawl_links_summary user links w v w' :
  crawl_links user links w = (Returned v, w') ->
  exists metadata ok errors,
    output_metadata w' = output_metadata w ++ [("crawled_links", metadata)]
    /\ log w'
       = log w ++ [LogStarting (length links)] ++ errors
               ++ [LogSummary ok (length links)]
    /\ forallb is_crawl_error errors = true
    /\ ok = sum_successful metadata
    /\ 0 <= ok <= Z.of_nat (length links)
    /\ Z.of_nat (length errors) = Z.of_nat (length links) - ok.
Proof.
  intros Hrun.
  apply crawl_links_returned in Hrun
    as (_ & metadata & ok & w1 & Hloop & -> & Hout).
  apply crawl_loop_outcomes in Hloop
    as (outcomes & errors & _ & -> & -> & Hlog & Herr & Hlen).
  exists (count_outcomes ∅ outcomes), (0 + successes outcomes), errors.
  split; [exact Hout|]. split.
  { cbn [finished log]. rewrite Hlog. cbn [started log].
    now rewrite <- !app_assoc. }
  split; [exact Herr|]. split.
  { rewrite sum_successful_count_outcomes. reflexivity. }
  assert (0 <= successes outcomes) by (unfold successes; lia).
  lia.
Qed.

(** X8.  The metrics a run hands over hold at most as many domains as the
    batch has links, and each of their records has exactly the two keys
    [successful] and [total]. *)
Theorem crawl_links_metrics_shape user links w v w' :
  crawl_links user links w = (Returned v, w') ->
  exists metadata,
    output_metadata w' = output_metadata w ++ [("crawled_links", metadata)]
    /\ (size metadata <= length links)%nat
    /\ forall d r, metadata !! d = Some r -> dom r = record_keys.
Proof.
  intros Hrun.
  apply crawl_links_returned in Hrun
    as (_ & metadata & ok & w1 & Hloop & _ & Hout).
  apply crawl_loop_outcomes in Hloop
    as (outcomes & errors & Hdom & -> & _).
  exists (count_outcomes ∅ outcomes). split; [exact Hout|]. split.
  - pose proof (size_count_outcomes outcomes ∅) as Hsize.
    rewrite map_size_empty in Hsize.
    rewrite (Forall2_length _ _ _ Hdom). lia.
  - apply shaped_count_outcomes. intros d r. rewrite lookup_empty. discriminate.
Qed.

(** X9.  When [urlparse] raises for a link of the batch, the crawler for
    that link has already been resolved, but [extract] is not called: the
    exception leaves [_crawl_link] and [crawl_links], the link is not
    counted, nothing is logged for it, the links after it are not processed
    and no metrics are handed over. *)
Theorem parse_failure_propagates user pre link post w st w1 crawler x e :
  crawl_loop user pre (∅, 0) (started (length (pre ++ link :: post)) w)
  = (Returned st, w1) ->
  get_crawler link (ext w1) = (Returned crawler, x) ->
  urlparse_netloc link = Raised e ->
  _crawl_link link user w1 = (Raised e, with_ext x w1)
  /\ crawl_links user (pre ++ link :: post) w = (Raised e, with_ext x w1)
  /\ log (with_ext x w1) = log w1
  /\ output_metadata (with_ext x w1) = output_metadata w.
Proof.
  intros Hpre Hc Hp.
  pose proof (crawl_link_unparsed _ user _ _ _ _ Hc Hp) as Hlink.
  split; [exact Hlink|]. split; [|split].
  - rewrite crawl_links_eq, crawl_loop_app, Hpre, crawl_loop_cons.
    destruct st as [metadata n]. now rewrite crawl_step_eq, Hlink.
  - reflexivity.
  - simpl. now rewrite (crawl_loop_output _ _ _ _ _ _ Hpre).
Qed.

End OrchestratorMore.

(* ===================================================================== *)
(** ** A failing extraction within a run *)
(* ===================================================================== *)

Section ExtractFailure.
Import Crawl.

Context {Crawler User W : Type} {env : Collaborators Crawler User W}.

Implicit Types (user : User) (link : string) (links pre post : list string)
  (w : World (W := W)) (metadata : gmap string (gmap string Z)).

(** The number of failures counted for a domain never goes down. *)
Lemma crawl_loop_gap user links : forall metadata n w metadata' n' w',
  crawl_loop user links (metadata, n) w = (Returned (metadata', n'), w') ->
  forall d, total_of metadata d - successful_of metadata d
            <= total_of metadata' d - successful_of metadata' d.
Proof.
  induction links as [|link links IH]; intros metadata n w metadata' n' w'.
  - intros [= <- <- <-] d. lia.
  - rewrite crawl_loop_cons.
    destruct (crawl_step user link (metadata, n) w) as [[[m1 n1]|e] w1] eqn:E;
      [|discriminate].
    intros Hloop d.
    apply crawl_step_returned in E as (ok & dl & _ & _ & -> & _).
    specialize (IH _ _ _ _ _ _ Hloop d).
    enough (total_of metadata d - successful_of metadata d
            <= total_of (_add_to_metadata metadata dl ok) d
               - successful_of (_add_to_metadata metadata dl ok) d) by lia.
    unfold total_of, successful_of.
    destruct (decide (d = dl)) as [->|Hne].
    + rewrite get_record_add_eq, get0_counted_total, get0_counted_successful.
      destruct ok; simpl; lia.
    + rewrite get_record_add_ne by assumption. lia.
Qed.

(** C1 (amended).  When the run reaches a link whose crawler resolves and
    whose [extract] call raises, [_crawl_link] catches and logs the error
    and returns the failed outcome for the link's domain; the run counts it
    (total of the domain up by one, successful unchanged) and is then what
    the loop over the remaining links makes of it; and when the remaining
    links resolve, [crawl_links] returns the batch, the error line is in its
    log and the metrics it hands over show a failure for that domain. *)
Theorem extract_failure_is_contained
    user pre link post w metadata n w1 crawler x d e x' :
  crawl_loop user pre (∅, 0) (started (length (pre ++ link :: post)) w)
  = (Returned (metadata, n), w1) ->
  get_crawler link (ext w1) = (Returned crawler, x) ->
  urlparse_netloc link = Returned d ->
  extract crawler link user x = (Some e, x') ->
  _crawl_link link user w1 = (Returned (false, d), caught e x' w1)
  /\ crawl_links user (pre ++ link :: post) w
     = match crawl_loop user post (_add_to_metadata metadata d false, n)
               (caught e x' w1) with
       | (Returned (metadata', ok), w') =>
           (Returned (pre ++ link :: post),
            finished metadata' ok (length (pre ++ link :: post)) w')
       | (Raised e', w') => (Raised e', w')
       end
  /\ total_of (_add_to_metadata metadata d false) d = total_of metadata d + 1
  /\ successful_of (_add_to_metadata metadata d false) d
     = successful_of metadata d
  /\ ((forall l, In l post -> resolves l) ->
      exists metadata' w',
        crawl_links user (pre ++ link :: post) w
        = (Returned (pre ++ link :: post), w')
        /\ output_metadata w'
           = output_metadata w ++ [("crawled_links", metadata')]
        /\ successful_of metadata' d < total_of metadata' d
        /\ In (LogCrawlError (exn_str e)) (log w')).
Proof.
  intros Hpre Hc Hd He.
  pose proof (crawl_link_caught _ user _ _ _ _ _ _ Hc Hd He) as Hlink.
  assert (Hrun : crawl_links user (pre ++ link :: post) w
     = match crawl_loop user post (_add_to_metadata metadata d false, n)
               (caught e x' w1) with
       | (Returned (metadata', ok), w') =>
           (Returned (pre ++ link :: post),
            finished metadata' ok (length (pre ++ link :: post)) w')
       | (Raised e', w') => (Raised e', w')
       end).
  { rewrite crawl_links_eq, crawl_loop_app, Hpre, crawl_loop_cons.
    rewrite crawl_step_eq, Hlink. simpl Z.b2z. now rewrite Z.add_0_r. }
  assert (Htot : total_of (_add_to_metadata metadata d false) d
                 = total_of metadata d + 1).
  { unfold total_of. now rewrite get_record_add_eq, get0_counted_total. }
  assert (Hsuc : successful_of (_add_to_metadata metadata d false) d
                 = successful_of metadata d).
  { unfold successful_of.
    rewrite get_record_add_eq, get0_counted_successful. simpl. lia. }
  split; [exact Hlink|]. split; [exact Hrun|].
  split; [exact Htot|]. split; [exact Hsuc|].
  intros Hres.
  destruct (crawl_loop_returns user post Hres
              (_add_to_metadata metadata d false, n) (caught e x' w1))
    as ([metadata' ok] & w2 & Hpost).
  rewrite Hpost in Hrun.
  exists metadata', (finished metadata' ok (length (pre ++ link :: post)) w2).
  split; [exact Hrun|]. split; [|split].
  - cbn [finished output_metadata].
    rewrite (crawl_loop_output _ _ _ _ _ _ Hpost). cbn [caught output_metadata].
    now rewrite (crawl_loop_output _ _ _ _ _ _ Hpre).
  - pose proof (crawl_loop_gap _ _ _ _ _ _ _ _ Hpost d) as Hgap.
    pose proof (crawl_loop_gap _ _ _ _ _ _ _ _ Hpre d) as Hgap0.
    rewrite Htot, Hsuc in Hgap.
    assert (Hzero : total_of ∅ d - successful_of ∅ d = 0) by reflexivity.
    lia.
  - apply crawl_loop_outcomes in Hpost
      as (outcomes & errors & _ & _ & _ & Hlog & _).
    cbn [finished log]. rewrite Hlog. cbn [caught log].
    apply in_or_app. left. apply in_or_app. left.
    apply in_or_app. right. now left.
Qed.

End ExtractFailure.

Section ExtractFailureAtEnv.
Import Crawl Env.

(** C1 (as stated, refuted).  On a batch whose first link cannot be
    fetched and whose second link opens a bracket in its network location,
    the error of [extract] is caught and logged, and yet the run does not
    return: it raises the [ValueError] of [urlparse] for the second link. *)
Lemma caught_failure_then_run_raises :
  _crawl_link (env := lenient) "https://medium.com/gone" paul
    (started 2 world0)
  = (Returned (false, "medium.com"), caught not_found 0%nat (started 2 world0))
  /\ crawl_links (env := lenient) paul
       ["https://medium.com/gone"; "http://["] world0
     = (Raised (mkExn "ValueError" "Invalid IPv6 URL"),
        mkWorld 0%nat [LogStarting 2; LogCrawlError "404 Not Found"] []).
Proof. split; reflexivity. Qed.

Lemma post_of_batch_resolves l :
  In l ["https://github.com/a/b"] -> resolves (env := lenient) l.
Proof.
  intros [<-|[]]; (split; [intros x; eexists _, _|eexists]); reflexivity.
Qed.

Lemma extract_failure_is_contained_witness :
  _crawl_link (env := lenient) "https://medium.com/gone" paul
    (started 3 after_first)
  = (Returned (false, "medium.com"),
     caught not_found 1%nat (started 3 after_first))
  /\ total_of (_add_to_metadata first_metrics "medium.com" false) "medium.com"
     = total_of first_metrics "medium.com" + 1
  /\ successful_of (_add_to_metadata first_metrics "medium.com" false)
       "medium.com"
     = successful_of first_metrics "medium.com"
  /\ exists metadata' w',
       crawl_links (env := lenient) paul batch world0 = (Returned batch, w')
       /\ output_metadata w'
          = output_metadata world0 ++ [("crawled_links", metadata')]
       /\ successful_of metadata' "medium.com" < total_of metadata' "medium.com"
       /\ In (LogCrawlError (exn_str not_found)) (log w').
Proof.
  destruct (extract_failure_is_contained (env := lenient) paul
              ["https://medium.com/p/1"] "https://medium.com/gone"
              ["https://github.com/a/b"] world0 first_metrics 1
              (started 3 after_first) Medium 1%nat "medium.com" not_found
              1%nat)
    as (Hlink & _ & Htot & Hsuc & Hrest); try reflexivity.
  split; [exact Hlink|]. split; [exact Htot|]. split; [exact Hsuc|].
  apply Hrest. exact post_of_batch_resolves.
Defined.

End ExtractFailureAtEnv.

Section EnvMore.
Import Crawl Env.

Local Abbreviation run_lenient := (crawl_links (env := lenient)).

Lemma crawl_links_counts_outcomes_in_order_witness :
  exists outcomes,
    Forall2 (fun link o => netloc link = Returned (snd o)) batch outcomes
    /\ output_metadata (snd (run_lenient paul batch world0))
       = output_metadata world0
         ++ [("crawled_links", count_outcomes ∅ outcomes)].
Proof.
  apply (crawl_links_counts_outcomes_in_order (env := lenient)
           paul batch world0 batch).
  vm_compute. reflexivity.
Defined.

Lemma crawl_links_summary_witness :
  exists metadata ok errors,
    output_metadata (snd (run_lenient paul batch world0))
    = output_metadata world0 ++ [("crawled_links", metadata)]
    /\ log (snd (run_lenient paul batch world0))
       = log world0 ++ [LogStarting 3] ++ errors ++ [LogSummary ok 3]
    /\ forallb is_crawl_error errors = true
    /\ ok = sum_successful metadata
    /\ 0 <= ok <= 3
    /\ Z.of_nat (length errors) = 3 - ok.
Proof.
  apply (crawl_links_summary (env := lenient) paul batch world0 batch).
  vm_compute. reflexivity.
Defined.

Lemma crawl_links_metrics_shape_witness :
  exists metadata,
    output_metadata (snd (run_lenient paul batch world0))
    = output_metadata world0 ++ [("crawled_links", metadata)]
    /\ (size metadata <= 3)%nat
    /\ forall d r, metadata !! d = Some r -> dom r = record_keys.
Proof.
  apply (crawl_links_metrics_shape (env := lenient) paul batch world0 batch).
  vm_compute. reflexivity.
Defined.

Lemma parse_failure_propagates_witness :
  _crawl_link (env := lenient) "http://[" paul (started 3 after_first)
  = (Raised (mkExn "ValueError" "Invalid IPv6 URL"),
     with_ext 1%nat (started 3 after_first))
  /\ run_lenient paul batch_with_bracket world0
     = (Raised (mkExn "ValueError" "Invalid IPv6 URL"),
        with_ext 1%nat (started 3 after_first))
  /\ log (with_ext 1%nat (started 3 after_first)) = log (started 3 after_first)
  /\ output_metadata (with_ext 1%nat (started 3 after_first))
     = output_metadata world0.
Proof.
  apply (parse_failure_propagates (env := lenient) paul
           ["https://medium.com/p/1"] "http://[" ["https://github.com/a/b"]
           world0 (first_metrics, 1) (started 3 after_first) Generic 1%nat
           (mkExn "ValueError" "Invalid IPv6 URL")); reflexivity.
Defined.

End EnvMore.

(* ===================================================================== *)
(** ** Properties of the user step *)
(* ===================================================================== *)

Section UserStep.
Import Crawl GetOrCreateUser.

Context {W : Type} {users : UserStore W}.

Implicit Types (w : World (W := W)).

(** X12.  The user step logs one line, whatever happens next.  When it
    returns, it returns the document that [get_or_create] gave for the two
    names into which the full name was split, and hands over the metadata
    of that name and that document.  When it raises, the exception is the
    one of the split, the store being untouched, or the one of
    [get_or_create]; no metadata is handed over. *)
Theorem get_or_create_user_outcomes user_full_name w :
  log (snd (get_or_create_user user_full_name w))
  = log w ++ [("Getting or creating user: " ++ user_full_name)%string]
  /\ (forall user w',
        get_or_create_user user_full_name w = (Returned user, w') ->
        (exists first_name last_name,
           split_user_full_name user_full_name
           = Returned (first_name, last_name)
           /\ get_or_create first_name last_name (store w)
              = (Returned user, store w'))
        /\ output_metadata w'
           = output_metadata w
             ++ [("user", _get_metadata user_full_name user)])
  /\ (forall e w',
        get_or_create_user user_full_name w = (Raised e, w') ->
        output_metadata w' = output_metadata w
        /\ ((split_user_full_name user_full_name = Raised e
             /\ store w' = store w)
            \/ exists first_name last_name,
                 split_user_full_name user_full_name
                 = Returned (first_name, last_name)
                 /\ get_or_create first_name last_name (store w)
                    = (Raised e, store w'))).
Proof.
  unfold get_or_create_user.
  destruct (split_user_full_name user_full_name) as [[f l]|e0] eqn:Hsplit.
  - cbn [logged store].
    destruct (get_or_create f l (store w)) as [[u|e0] s] eqn:Hget.
    + split; [reflexivity|]. split.
      * intros user w' [= <- <-]. split; [|reflexivity].
        exists f, l. auto.
      * intros e w' [=].
    + split; [reflexivity|]. split.
      * intros user w' [=].
      * intros e w' [= <- <-]. split; [reflexivity|]. right.
        exists f, l. auto.
  - split; [reflexivity|]. split.
    + intros user w' [=].
    + intros e w' [= <- <-]. split; [reflexivity|]. left. auto.
Qed.

End UserStep.

Section UserStepWitnesses.
Import Crawl GetOrCreateUser.

Lemma get_or_create_user_outcomes_witness :
  (exists first_name last_name,
     split_one "Paul Iusztin" = Returned (first_name, last_name)
     /\ find_or_add first_name last_name []
        = (Returned (Env.mkUser "new" "Paul" "Iusztin"),
           [Env.mkUser "new" "Paul" "Iusztin"]))
  /\ output_metadata
       (snd (get_or_create_user (users := one_store) "Paul Iusztin" empty_world))
     = [("user",
         _get_metadata "Paul Iusztin" (Env.mkUser "new" "Paul" "Iusztin"))].
Proof.
  apply (proj1 (proj2 (get_or_create_user_outcomes (users := one_store)
                         "Paul Iusztin" empty_world))
           (Env.mkUser "new" "Paul" "Iusztin")
           (snd (get_or_create_user (users := one_store)
                   "Paul Iusztin" empty_world))).
  reflexivity.
Defined.

End UserStepWitnesses.
